(** * lib/sm/sm.c: the secure-monitor core of Trusty's LK kernel

    A shallow embedding of [src/lib/sm/sm.c] and the properties of its
    handler registry, its boot-argument reference counting, its dispatch
    loop and its IRQ interception routine.

    The file-scope variables of sm.c become the fields of one record,
    [sm_state]; every C function becomes a function on that record.  Calls
    into the rest of the kernel (critical sections, the mutex, kmap, the
    scheduler, logging, the world-switch primitive) are not defined in
    sm.c: each such call is appended to the [trace] field, oldest first,
    and the values those calls hand back (the result of [kmap_contig], of
    [thread_create], the successive answers of [sm_sched_nonsecure]) are
    arguments of the embedded function. *)

From Stdlib Require Import ZArith List String Lia.
From stdpp Require Import base list gmap.
Import ListNotations.

Local Open Scope Z_scope.

(** ** Machine integers

    The target is 32-bit ARM (see the [mrc p15] sequences of
    [sm_secondary_init]): [int] and [long] are 32 bits wide.  [int_of]
    brings an integer back into the range of [int].  C leaves the overflow
    of a signed [++] or [--] undefined; the model follows the load, add and
    store the compiler emits for a static [int], which wrap around in
    two's complement. *)

Definition INT_MAX : Z := 2147483647.
Definition INT_MIN : Z := -2147483648.

Definition int_of (z : Z) : Z := (z + 2147483648) mod 4294967296 - 2147483648.

Definition int_range (z : Z) : Prop := INT_MIN <= z <= INT_MAX.

#[local] Arguments int_of : simpl never.

(** ** Codes declared in headers outside sm.c *)

(** [status_t] codes of err.h.  The header is not part of the translated
    sources, so the codes stay symbolic: sm.c only compares a status with
    zero ([NO_ERROR]) and returns the three named errors. *)
Inductive status_t : Type :=
| NO_ERROR
| ERR_INVALID_ARGS
| ERR_ALREADY_EXISTS
| ERR_NOT_CONFIGURED
| ERR_other (code : Z).

(** [enum handler_return] of the interrupt layer. *)
Inductive handler_return : Type :=
| INT_NO_RESCHEDULE
| INT_RESCHEDULE.

(** Pointers are addresses; [NULL] is address zero. *)
Definition NULL : Z := 0.

Section sm.

(** [ts_args_t], the argument record of lib/sm.h, is copied and handed to
    the handler but never inspected by sm.c. *)
Context {ts_args_t : Type}.

(** ** Calls that leave sm.c *)

Inductive event : Type :=
| E_enter_critical_section
| E_exit_critical_section
| E_thread_yield
| E_sm_sched_nonsecure (ret : Z)
| E_ts_handler (fn : Z) (args : ts_args_t)
| E_dprintf (fmt : string)
| E_TRACEF (fmt : string)
| E_TRACEF_d (fmt : string) (err : status_t)
| E_mutex_acquire
| E_mutex_release
| E_kmap_contig (pa size : Z)
| E_kunmap (va size : Z)
| E_thread_create
| E_thread_resume (t : Z)
| E_halt.

(** ** The file-scope state of sm.c

    [sm_platform_boot_args] holds the two words the platform code stored.
    sm.c only tests them against zero and hands them on as the address and
    the size ([kmap_contig], [kunmap], [*args_sizep]), so each is kept as
    the number those uses see. *)

Record sm_state : Type := mk_sm_state {
  ts_handler : Z;                  (* static trusted_service_handler_routine *)
  sm_platform_boot_args : Z * Z;   (* extern long [2]: physical address, size *)
  boot_args : Z;                   (* static void * *)
  boot_args_refcnt : Z;            (* static int *)
  nsthread : Z;                    (* static thread_t * *)
  memory : gmap Z Z;               (* words written through caller pointers *)
  trace : list event               (* calls made so far, oldest first *)
}.

Definition set_ts_handler (fn : Z) (st : sm_state) : sm_state :=
  mk_sm_state fn (sm_platform_boot_args st) (boot_args st)
    (boot_args_refcnt st) (nsthread st) (memory st) (trace st).

Definition set_boot_args (p : Z) (st : sm_state) : sm_state :=
  mk_sm_state (ts_handler st) (sm_platform_boot_args st) p
    (boot_args_refcnt st) (nsthread st) (memory st) (trace st).

Definition set_boot_args_refcnt (n : Z) (st : sm_state) : sm_state :=
  mk_sm_state (ts_handler st) (sm_platform_boot_args st) (boot_args st)
    n (nsthread st) (memory st) (trace st).

Definition set_nsthread (t : Z) (st : sm_state) : sm_state :=
  mk_sm_state (ts_handler st) (sm_platform_boot_args st) (boot_args st)
    (boot_args_refcnt st) t (memory st) (trace st).

(** [*p = v] for a caller-supplied pointer [p]. *)
Definition store (p v : Z) (st : sm_state) : sm_state :=
  mk_sm_state (ts_handler st) (sm_platform_boot_args st) (boot_args st)
    (boot_args_refcnt st) (nsthread st) (<[p := v]> (memory st)) (trace st).

Definition log (e : event) (st : sm_state) : sm_state :=
  mk_sm_state (ts_handler st) (sm_platform_boot_args st) (boot_args st)
    (boot_args_refcnt st) (nsthread st) (memory st) (trace st ++ [e]).

(** The state at boot: the statics of sm.c are zero-initialised, the
    platform code has stored what the boot loader passed. *)
Definition boot_state (pa size : Z) : sm_state :=
  mk_sm_state NULL (pa, size) NULL 0 NULL ∅ [].

(** ** Handler registry *)

Definition sm_register_trusted_service_handler (fn : Z) (st : sm_state)
  : status_t * sm_state :=
  if negb (ts_handler st =? NULL) then (ERR_ALREADY_EXISTS, st)
  else
    let st := log E_enter_critical_section st in
    let st := set_ts_handler fn st in
    let st := log E_exit_critical_section st in
    (NO_ERROR, st).

(** A sequence of registration calls, with the status of each. *)
Fixpoint register_all (fns : list Z) (st : sm_state)
  : list status_t * sm_state :=
  match fns with
  | [] => ([], st)
  | fn :: fns' =>
      let '(r, st1) := sm_register_trusted_service_handler fn st in
      let '(rs, st2) := register_all fns' st1 in
      (r :: rs, st2)
  end.

(** ** Dispatch loop *)

(** What the code of a registered handler returns, and the result codes of
    lib/sm/sm_err.h. *)
Variable ts_call : Z -> ts_args_t -> Z.
Variable SM_ERR_INTERRUPTED : Z.
Variable SM_ERR_UNEXPECTED_RESTART : Z.
Variable SM_ERR_INTERLEAVED_SMC : Z.
Variable SM_ERR_NOT_SUPPORTED : Z.

(** The successive answers of [sm_sched_nonsecure]: [None] is a null
    pointer, [Some a] a pointer to the record [a].  When the list is used
    up the non-secure world does not come back, and the call does not
    return. *)
Definition ns_world : Type := list (option ts_args_t).

(** The [while (true)] of [sm_wait_for_smcall], one iteration per answer of
    the primitive.  The function never returns; the result is the state in
    which the loop is left waiting inside [sm_sched_nonsecure]. *)
Fixpoint sm_wait_for_smcall_loop (ns : ns_world) (ret : Z) (st : sm_state)
  : sm_state :=
  let st := log E_enter_critical_section st in
  let st := log E_thread_yield st in
  let st := log (E_sm_sched_nonsecure ret) st in
  match ns with
  | [] => st
  | None :: ns' =>
      let ret := SM_ERR_UNEXPECTED_RESTART in
      let st := log E_exit_critical_section st in
      sm_wait_for_smcall_loop ns' ret st
  | Some args :: ns' =>
      let st := log E_exit_critical_section st in
      if negb (ts_handler st =? NULL) then
        let ret := ts_call (ts_handler st) args in
        let st := log (E_ts_handler (ts_handler st) args) st in
        sm_wait_for_smcall_loop ns' ret st
      else
        let st := log (E_dprintf "No service handler registered!") st in
        let ret := SM_ERR_NOT_SUPPORTED in
        sm_wait_for_smcall_loop ns' ret st
  end.

Definition sm_wait_for_smcall (ns : ns_world) (st : sm_state) : sm_state :=
  sm_wait_for_smcall_loop ns 0 st.

(** ** IRQ interception *)

(** The primitive has just been called and [ns] holds its answers from that
    call on: [while (args) args = sm_sched_nonsecure(SM_ERR_INTERLEAVED_SMC);]
    then the [return].  No value is returned when the primitive does not
    come back. *)
Fixpoint sm_handle_irq_loop (ns : ns_world) (st : sm_state)
  : option handler_return * sm_state :=
  match ns with
  | [] => (None, st)
  | None :: _ => (Some INT_NO_RESCHEDULE, st)
  | Some _ :: ns' =>
      let st := log (E_sm_sched_nonsecure SM_ERR_INTERLEAVED_SMC) st in
      sm_handle_irq_loop ns' st
  end.

Definition sm_handle_irq (ns : ns_world) (st : sm_state)
  : option handler_return * sm_state :=
  let st := log (E_sm_sched_nonsecure SM_ERR_INTERRUPTED) st in
  sm_handle_irq_loop ns st.

(** ** Boot-argument lifetime *)

(** [sm_init] either returns or, when the dispatch thread cannot be
    created, ends in [halt()]. *)
Inductive outcome : Type :=
| Returned (st : sm_state)
| Halted (st : sm_state).

Definition state_of (o : outcome) : sm_state :=
  match o with
  | Returned st => st
  | Halted st => st
  end.

(** [kmap] is what [kmap_contig] hands back: its status and the address it
    stored through its last argument, [&boot_args].  [thr] is the result of
    [thread_create]. *)
Definition sm_init (kmap : status_t * Z) (thr : Z) (st : sm_state) : outcome :=
  let st := log E_mutex_acquire st in
  let st :=
    if negb (fst (sm_platform_boot_args st) =? 0)
       && negb (snd (sm_platform_boot_args st) =? 0)
    then
      let st := log (E_kmap_contig (fst (sm_platform_boot_args st))
                                   (snd (sm_platform_boot_args st))) st in
      let st := set_boot_args (snd kmap) st in
      match fst kmap with
      | NO_ERROR =>
          set_boot_args_refcnt (int_of (boot_args_refcnt st + 1)) st
      | err =>
          let st := set_boot_args NULL st in
          log (E_TRACEF_d "Error mapping boot parameter block: %d" err) st
      end
    else st in
  let st := log E_mutex_release st in
  let st := log E_thread_create st in
  let st := set_nsthread thr st in
  if thr =? NULL then
    let st := log (E_dprintf "failed to create NS switcher thread!") st in
    Halted (log E_halt st)
  else Returned st.

Definition sm_get_boot_args (boot_argsp args_sizep : Z) (st : sm_state)
  : status_t * sm_state :=
  if (boot_argsp =? NULL) || (args_sizep =? NULL) then (ERR_INVALID_ARGS, st)
  else
    let st := log E_mutex_acquire st in
    if boot_args st =? NULL then
      (ERR_NOT_CONFIGURED, log E_mutex_release st)
    else
      let st := set_boot_args_refcnt (int_of (boot_args_refcnt st + 1)) st in
      let st := store boot_argsp (boot_args st) st in
      let st := store args_sizep (snd (sm_platform_boot_args st)) st in
      (NO_ERROR, log E_mutex_release st).

Definition sm_put_boot_args (st : sm_state) : sm_state :=
  let st := log E_mutex_acquire st in
  if boot_args st =? NULL then
    let st :=
      log (E_TRACEF
             "WARNING: caller does not own a reference to boot parameters")
          st in
    log E_mutex_release st
  else
    let st := set_boot_args_refcnt (int_of (boot_args_refcnt st - 1)) st in
    let st :=
      if boot_args_refcnt st =? 0 then
        let st :=
          log (E_kunmap (boot_args st) (snd (sm_platform_boot_args st))) st in
        let st := set_boot_args NULL st in
        log (E_thread_resume (nsthread st)) st
      else st in
    log E_mutex_release st.

Definition sm_release_boot_args (st : sm_state) : sm_state :=
  let st :=
    if negb (boot_args st =? NULL) then sm_put_boot_args st
    else log (E_thread_resume (nsthread st)) st in
  if negb (boot_args st =? NULL) then
    log (E_TRACEF
           "WARNING: outstanding reference to boot argsat the end of initialzation!")
        st
  else st.

(** ** Sequences of calls *)

Inductive sm_call : Type :=
| call_sm_init (kmap : status_t * Z) (thr : Z)
| call_sm_get_boot_args (boot_argsp args_sizep : Z)
| call_sm_put_boot_args.

Definition do_call (c : sm_call) (st : sm_state) : outcome :=
  match c with
  | call_sm_init kmap thr => sm_init kmap thr st
  | call_sm_get_boot_args p q => Returned (snd (sm_get_boot_args p q st))
  | call_sm_put_boot_args => Returned (sm_put_boot_args st)
  end.

(** The calls are made in order; nothing runs after [halt()]. *)
Fixpoint run (cs : list sm_call) (st : sm_state) : sm_state :=
  match cs with
  | [] => st
  | c :: cs' =>
      match do_call c st with
      | Returned st' => run cs' st'
      | Halted st' => st'
      end
  end.

(** [n] acquisitions through the given pairs of output pointers, with the
    status of each, and [k] releases. *)
Fixpoint get_all (ptrs : list (Z * Z)) (st : sm_state)
  : list status_t * sm_state :=
  match ptrs with
  | [] => ([], st)
  | (p, q) :: ptrs' =>
      let '(r, st1) := sm_get_boot_args p q st in
      let '(rs, st2) := get_all ptrs' st1 in
      (r :: rs, st2)
  end.

Fixpoint put_all (k : nat) (st : sm_state) : sm_state :=
  match k with
  | O => st
  | S k' => put_all k' (sm_put_boot_args st)
  end.

(** ** Observations on states and traces *)

(** A view is mapped exactly when references are counted. *)
Definition view_iff_counted (st : sm_state) : Prop :=
  boot_args st <> NULL <-> 0 < boot_args_refcnt st.

Definition is_kunmap (e : event) : bool :=
  match e with
  | E_kunmap _ _ => true
  | _ => false
  end.

Definition is_kmap_contig (e : event) : bool :=
  match e with
  | E_kmap_contig _ _ => true
  | _ => false
  end.

(** The result codes passed to the world-switch primitive, in order. *)
Fixpoint switch_args (tr : list event) : list Z :=
  match tr with
  | [] => []
  | E_sm_sched_nonsecure ret :: tr' => ret :: switch_args tr'
  | _ :: tr' => switch_args tr'
  end.

(** The handler invocations, in order. *)
Fixpoint handler_calls (tr : list event) : list (Z * ts_args_t) :=
  match tr with
  | [] => []
  | E_ts_handler fn a :: tr' => (fn, a) :: handler_calls tr'
  | _ :: tr' => handler_calls tr'
  end.

(** Nesting depth of critical sections after a trace that starts at depth
    [d]. *)
Fixpoint cs_depth (d : Z) (tr : list event) : Z :=
  match tr with
  | [] => d
  | E_enter_critical_section :: tr' => cs_depth (d + 1) tr'
  | E_exit_critical_section :: tr' => cs_depth (d - 1) tr'
  | _ :: tr' => cs_depth d tr'
  end.

(** ** Side conditions on calls

    [kmap_contig] is outside sm.c: a mapping that succeeds is expected to
    store a non-null address.  The reference count is an [int] and is not
    guarded against overflow, and [sm_init] clears the view pointer without
    touching the count when the mapping fails.  A call is [admissible] in a
    state when none of this goes wrong. *)
Definition admissible (c : sm_call) (st : sm_state) : bool :=
  match c with
  | call_sm_init kmap thr =>
      if negb (fst (sm_platform_boot_args st) =? 0)
         && negb (snd (sm_platform_boot_args st) =? 0)
      then
        match fst kmap with
        | NO_ERROR =>
            negb (snd kmap =? NULL) && (boot_args_refcnt st <? INT_MAX)
        | _ => boot_args st =? NULL
        end
      else true
  | call_sm_get_boot_args p q =>
      (p =? NULL) || (q =? NULL) || (boot_args st =? NULL)
      || (boot_args_refcnt st <? INT_MAX)
  | call_sm_put_boot_args => true
  end.

Fixpoint admissible_run (cs : list sm_call) (st : sm_state) : bool :=
  match cs with
  | [] => true
  | c :: cs' =>
      admissible c st
      && match do_call c st with
         | Returned st' => admissible_run cs' st'
         | Halted _ => true
         end
  end.

(** Both output pointers of an acquisition are non-null. *)
Definition valid_slots (pq : Z * Z) : Prop := fst pq <> NULL /\ snd pq <> NULL.

(** What a release looks at, apart from the count: the view pointer, the
    platform words, the dispatch thread and the unmaps made so far. *)
Definition same_view (st st' : sm_state) : Prop :=
  boot_args st' = boot_args st
  /\ sm_platform_boot_args st' = sm_platform_boot_args st
  /\ nsthread st' = nsthread st
  /\ List.filter is_kunmap (trace st') = List.filter is_kunmap (trace st).

(** The invariant of the reference count: a view is mapped exactly when
    references are counted, and the count is a non-negative [int]. *)
Definition counted (st : sm_state) : Prop :=
  view_iff_counted st /\ 0 <= boot_args_refcnt st <= INT_MAX.

Definition is_sm_init (c : sm_call) : bool :=
  match c with
  | call_sm_init _ _ => true
  | _ => false
  end.

(** The boot loader passed no region: the address or the size is zero.  No
    view is mapped then, and nothing has been mapped or unmapped. *)
Definition no_region (st : sm_state) : Prop :=
  (fst (sm_platform_boot_args st) = 0 \/ snd (sm_platform_boot_args st) = 0)
  /\ boot_args st = NULL
  /\ List.filter is_kmap_contig (trace st) = []
  /\ List.filter is_kunmap (trace st) = [].

(** The requests among the answers of the primitive. *)
Fixpoint requests (ns : ns_world) : list ts_args_t :=
  match ns with
  | [] => []
  | None :: ns' => requests ns'
  | Some a :: ns' => a :: requests ns'
  end.

(** ** Further observations *)

(** Everything but the trace is the same in both states. *)
Definition same_statics (st st' : sm_state) : Prop :=
  ts_handler st' = ts_handler st
  /\ sm_platform_boot_args st' = sm_platform_boot_args st
  /\ boot_args st' = boot_args st
  /\ boot_args_refcnt st' = boot_args_refcnt st
  /\ nsthread st' = nsthread st
  /\ memory st' = memory st.

Definition is_thread_resume (e : event) : bool :=
  match e with
  | E_thread_resume _ => true
  | _ => false
  end.

(** The result an iteration of the dispatch loop leaves for the next
    switch, given the registered handler [h] and the answer [o] of the
    primitive. *)
Definition iteration_result (h : Z) (o : option ts_args_t) : Z :=
  match o with
  | None => SM_ERR_UNEXPECTED_RESTART
  | Some args =>
      if negb (h =? NULL) then ts_call h args else SM_ERR_NOT_SUPPORTED
  end.

(** How the dispatch thread uses critical sections, read along a trace
    that starts at nesting depth [d]: it yields and switches only inside a
    critical section, exits only one it has entered, and calls the handler
    and logs only outside. *)
Fixpoint dispatch_discipline (d : Z) (tr : list event) : bool :=
  match tr with
  | [] => true
  | E_enter_critical_section :: tr' => dispatch_discipline (d + 1) tr'
  | E_exit_critical_section :: tr' =>
      (0 <? d) && dispatch_discipline (d - 1) tr'
  | E_thread_yield :: tr' => (0 <? d) && dispatch_discipline d tr'
  | E_sm_sched_nonsecure _ :: tr' => (0 <? d) && dispatch_discipline d tr'
  | E_ts_handler _ _ :: tr' => (d =? 0) && dispatch_discipline d tr'
  | E_dprintf _ :: tr' => (d =? 0) && dispatch_discipline d tr'
  | _ :: tr' => dispatch_discipline d tr'
  end.

(** How [boot_args_lock] is used, read along a trace: it is not acquired
    while held nor released while free, and [kmap_contig] and [kunmap] are
    called only while it is held.  The result says whether the lock is held
    at the end; [None] is a violation. *)
Fixpoint lock_discipline (held : bool) (tr : list event) : option bool :=
  match tr with
  | [] => Some held
  | E_mutex_acquire :: tr' =>
      if held then None else lock_discipline true tr'
  | E_mutex_release :: tr' =>
      if held then lock_discipline false tr' else None
  | E_kmap_contig _ _ :: tr' =>
      if held then lock_discipline held tr' else None
  | E_kunmap _ _ :: tr' =>
      if held then lock_discipline held tr' else None
  | _ :: tr' => lock_discipline held tr'
  end.

(** The count after a sequence of acquisitions and releases in which a
    caller only releases what has been acquired: starting from a count [c]
    of at least 1, a release needs a count above 1 and an acquisition that
    goes through needs a count below [INT_MAX].  [None] when the sequence
    is not of that kind, or calls [sm_init]. *)
Fixpoint outstanding (c : Z) (cs : list sm_call) : option Z :=
  match cs with
  | [] => Some c
  | call_sm_get_boot_args p q :: cs' =>
      if (p =? NULL) || (q =? NULL) then outstanding c cs'
      else if c <? INT_MAX then outstanding (c + 1) cs'
      else None
  | call_sm_put_boot_args :: cs' =>
      if 1 <? c then outstanding (c - 1) cs' else None
  | call_sm_init _ _ :: _ => None
  end.

(** ** Per-CPU monitor bring-up

    [sm_secondary_init] touches none of the statics above: it allocates the
    monitor stack, hands its top to [sm_set_mon_stack], and writes two
    coprocessor registers, the Non-Secure Access Control Register
    ([c1, c1, 2], named in the source) and the monitor vector base
    ([c12, c0, 1]). *)

Inductive cpu_event : Type :=
| C_heap_alloc (size align : Z)
| C_sm_set_mon_stack (stack : Z)
| C_dprintf (fmt : string).

Record cpu_state : Type := mk_cpu_state {
  NSACR : Z;
  MVBAR : Z;
  cpu_trace : list cpu_event
}.

Definition cpu_log (e : cpu_event) (cpu : cpu_state) : cpu_state :=
  mk_cpu_state (NSACR cpu) (MVBAR cpu) (cpu_trace cpu ++ [e]).

(** Addresses are 32 bits wide. *)
Definition ptr_of (z : Z) : Z := z mod 4294967296.

(** [mon_stack] is what [heap_alloc] returns, [monitor_vector_table] the
    address of the table. *)
Definition sm_secondary_init (mon_stack monitor_vector_table : Z)
  (cpu : cpu_state) : cpu_state :=
  let stack_size := 4096 in
  let cpu := cpu_log (C_heap_alloc stack_size 8) cpu in
  let cpu :=
    if mon_stack =? NULL then
      cpu_log (C_dprintf "failed to allocate monitor mode stack!") cpu
    else cpu_log (C_sm_set_mon_stack (ptr_of (mon_stack + stack_size))) cpu in
  let r1 := NSACR cpu in
  let r1 := Z.lor r1 3072 in
  let r1 := Z.lor r1 393216 in
  let cpu := mk_cpu_state r1 (MVBAR cpu) (cpu_trace cpu) in
  mk_cpu_state (NSACR cpu) monitor_vector_table (cpu_trace cpu).

(** * Properties *)

(** ** Arithmetic of [int] *)

Lemma int_of_id (z : Z) : int_range z -> int_of z = z.
Proof.
  unfold int_range, INT_MIN, INT_MAX, int_of. intros Hz.
  rewrite Z.mod_small; lia.
Qed.

Lemma int_of_range (z : Z) : int_range (int_of z).
Proof.
  unfold int_range, INT_MIN, INT_MAX, int_of.
  pose proof (Z.mod_pos_bound (z + 2147483648) 4294967296). lia.
Qed.

Lemma int_of_add (z k : Z) : int_of (int_of z + k) = int_of (z + k).
Proof.
  unfold int_of.
  replace ((z + 2147483648) mod 4294967296 - 2147483648 + k + 2147483648)
    with ((z + 2147483648) mod 4294967296 + k) by lia.
  replace (z + k + 2147483648) with (z + 2147483648 + k) by lia.
  rewrite Zplus_mod_idemp_l. reflexivity.
Qed.

Lemma int_of_sub (z k : Z) : int_of (int_of z - k) = int_of (z - k).
Proof.
  replace (int_of z - k) with (int_of z + - k) by lia.
  rewrite int_of_add. reflexivity.
Qed.

Lemma int_of_nonzero (z : Z) : 0 < z < 4294967296 -> int_of z <> 0.
Proof.
  unfold int_of. intros Hz.
  destruct (Z_lt_dec z 2147483648).
  - rewrite Z.mod_small; lia.
  - replace (z + 2147483648) with (z - 2147483648 + 1 * 4294967296) by lia.
    rewrite Z_mod_plus_full. rewrite Z.mod_small; lia.
Qed.

(** ** Traces only grow *)

Lemma handler_calls_app (l1 l2 : list event) :
  handler_calls (l1 ++ l2) = handler_calls l1 ++ handler_calls l2.
Proof.
  induction l1 as [|e l1 IH]; simpl; [reflexivity|].
  destruct e; simpl; rewrite ?IH; reflexivity.
Qed.

Lemma switch_args_app (l1 l2 : list event) :
  switch_args (l1 ++ l2) = switch_args l1 ++ switch_args l2.
Proof.
  induction l1 as [|e l1 IH]; simpl; [reflexivity|].
  destruct e; simpl; rewrite ?IH; reflexivity.
Qed.

(** Every iteration of the dispatch loop starts by entering the critical
    section, yielding and switching with the pending result. *)
Lemma sm_wait_for_smcall_loop_head (ns : ns_world) (ret : Z) (st : sm_state) :
  exists tl,
    trace (sm_wait_for_smcall_loop ns ret st)
    = trace st
      ++ [E_enter_critical_section; E_thread_yield; E_sm_sched_nonsecure ret]
      ++ tl.
Proof.
  revert ret st. induction ns as [|[a|] ns IH]; intros ret st.
  - exists []. simpl. rewrite <- !app_assoc. reflexivity.
  - simpl. destruct (ts_handler st =? NULL); simpl.
    + edestruct IH as [tl ->]. simpl. rewrite <- !app_assoc. simpl. eauto.
    + edestruct IH as [tl ->]. simpl. rewrite <- !app_assoc. simpl. eauto.
  - simpl. edestruct IH as [tl ->]. simpl. rewrite <- !app_assoc. simpl. eauto.
Qed.

(** The loop never writes the registry, and it calls the registered
    handler, and no other, once per request. *)
Lemma sm_wait_for_smcall_loop_handler (ns : ns_world) (ret : Z)
  (st : sm_state) :
  ts_handler st <> NULL ->
  ts_handler (sm_wait_for_smcall_loop ns ret st) = ts_handler st
  /\ handler_calls (trace (sm_wait_for_smcall_loop ns ret st))
     = handler_calls (trace st)
       ++ map (fun a => (ts_handler st, a)) (requests ns).
Proof.
  revert ret st. induction ns as [|[a|] ns IH]; intros ret st Hh.
  - simpl. rewrite !handler_calls_app. simpl. rewrite !app_nil_r. auto.
  - simpl. apply Z.eqb_neq in Hh as Hb. rewrite Hb. simpl.
    match goal with |- context [sm_wait_for_smcall_loop ns ?r ?s] =>
      destruct (IH r s) as [E1 E2]; [exact Hh|] end.
    rewrite E1, E2. simpl. rewrite !handler_calls_app. simpl.
    rewrite !app_nil_r, <- app_assoc. auto.
  - simpl.
    match goal with |- context [sm_wait_for_smcall_loop ns ?r ?s] =>
      destruct (IH r s) as [E1 E2]; [exact Hh|] end.
    rewrite E1, E2. simpl. rewrite !handler_calls_app. simpl.
    rewrite !app_nil_r. auto.
Qed.

(** ** Registry *)

Lemma register_all_registered (fns : list Z) (st : sm_state) :
  ts_handler st <> NULL ->
  register_all fns st = (replicate (length fns) ERR_ALREADY_EXISTS, st).
Proof.
  intros Hh. induction fns as [|fn fns IH]; simpl; [reflexivity|].
  unfold sm_register_trusted_service_handler.
  apply Z.eqb_neq in Hh as Hb. rewrite Hb. simpl. rewrite IH. reflexivity.
Qed.

Lemma register_all_nulls (k : nat) (st : sm_state) :
  ts_handler st = NULL ->
  exists st',
    register_all (replicate k NULL) st = (replicate k NO_ERROR, st')
    /\ ts_handler st' = NULL
    /\ handler_calls (trace st') = handler_calls (trace st).
Proof.
  revert st. induction k as [|k IH]; intros st Hh; simpl.
  - eauto.
  - unfold sm_register_trusted_service_handler. rewrite Hh. simpl.
    match goal with |- context [register_all _ ?s] =>
      destruct (IH s) as (st' & E & H1 & H2); [reflexivity|] end.
    rewrite E. exists st'. repeat split; auto.
    rewrite H2. simpl. rewrite !handler_calls_app. simpl.
    rewrite !app_nil_r. reflexivity.
Qed.

(** C10: in the unregistered state a call with a null handler returns
    [NO_ERROR] and leaves the registry empty, and a later call with a
    non-null handler returns [NO_ERROR] as well: two calls of one sequence
    succeed. *)
Theorem register_null_succeeds_twice (fn : Z) (st : sm_state) :
  ts_handler st = NULL ->
  fn <> NULL ->
  let r1 := sm_register_trusted_service_handler NULL st in
  let r2 := sm_register_trusted_service_handler fn (snd r1) in
  fst r1 = NO_ERROR /\ ts_handler (snd r1) = NULL
  /\ fst r2 = NO_ERROR /\ ts_handler (snd r2) = fn
  /\ fst (register_all [NULL; fn] st) = [NO_ERROR; NO_ERROR].
Proof.
  intros Hh Hfn. simpl.
  unfold sm_register_trusted_service_handler. rewrite Hh. simpl.
  repeat split; reflexivity.
Qed.

(** C1, amended: starting with an empty registry, calls that pass a null
    handler return [NO_ERROR] and register nothing; the first call that
    passes a non-null handler [fn] returns [NO_ERROR]; every call after it
    returns [ERR_ALREADY_EXISTS] and leaves the whole state untouched, and
    [fn] is the handler the dispatch loop invokes, once per request. *)
Theorem register_first_handler_wins (k : nat) (fn : Z) (fns : list Z)
  (st : sm_state) (ns : ns_world) :
  ts_handler st = NULL ->
  fn <> NULL ->
  exists st1,
    register_all (replicate k NULL ++ [fn]) st
    = (replicate (S k) NO_ERROR, st1)
    /\ ts_handler st1 = fn
    /\ register_all (replicate k NULL ++ fn :: fns) st
       = (replicate (S k) NO_ERROR
            ++ replicate (length fns) ERR_ALREADY_EXISTS, st1)
    /\ handler_calls (trace (sm_wait_for_smcall ns st1))
       = handler_calls (trace st) ++ map (fun a => (fn, a)) (requests ns).
Proof.
  intros Hh Hfn.
  assert (Happ : forall l1 l2 s,
             register_all (l1 ++ l2) s
             = (fst (register_all l1 s) ++ fst (register_all l2 (snd (register_all l1 s))),
                snd (register_all l2 (snd (register_all l1 s))))).
  { induction l1 as [|x l1 IH]; intros l2 s; simpl.
    - destruct (register_all l2 s); reflexivity.
    - destruct (sm_register_trusted_service_handler x s) as [r s1].
      rewrite IH. destruct (register_all l1 s1) as [rs s2]. simpl.
      destruct (register_all l2 s2); reflexivity. }
  destruct (register_all_nulls k st Hh) as (st0 & E0 & H0 & T0).
  set (st1 := snd (sm_register_trusted_service_handler fn st0)).
  assert (E1 : sm_register_trusted_service_handler fn st0 = (NO_ERROR, st1)).
  { unfold st1, sm_register_trusted_service_handler. rewrite H0. reflexivity. }
  assert (H1 : ts_handler st1 = fn).
  { unfold st1, sm_register_trusted_service_handler. rewrite H0. reflexivity. }
  assert (T1 : handler_calls (trace st1) = handler_calls (trace st)).
  { unfold st1, sm_register_trusted_service_handler. rewrite H0. simpl.
    rewrite !handler_calls_app. simpl. rewrite !app_nil_r. exact T0. }
  assert (Hn : ts_handler st1 <> NULL) by (rewrite H1; exact Hfn).
  exists st1. split; [|split; [exact H1|split]].
  - rewrite Happ, E0. simpl. rewrite E1. simpl.
    replace (NO_ERROR :: replicate k NO_ERROR)
      with (replicate (S k) NO_ERROR) by reflexivity.
    rewrite replicate_S_end. reflexivity.
  - rewrite Happ, E0. simpl. rewrite E1.
    rewrite (register_all_registered fns st1 Hn). simpl.
    replace (NO_ERROR :: replicate k NO_ERROR ++ replicate (length fns) ERR_ALREADY_EXISTS)
      with (replicate (S k) NO_ERROR ++ replicate (length fns) ERR_ALREADY_EXISTS)
      by reflexivity.
    rewrite replicate_S_end, <- app_assoc. reflexivity.
  - unfold sm_wait_for_smcall.
    destruct (sm_wait_for_smcall_loop_handler ns 0 st1 Hn) as [_ E].
    rewrite E, T1, H1. reflexivity.
Qed.

(** ** Dispatch loop and IRQ interception *)

(** C7: with no handler registered and a primitive that answers null, then
    a request, the loop switches first with the initial result 0, records
    [SM_ERR_UNEXPECTED_RESTART] and passes it to the second switch, logs
    the missing handler in the second iteration, and passes
    [SM_ERR_NOT_SUPPORTED] to the third switch. *)
Theorem sm_wait_for_smcall_restart_then_unsupported (a : ts_args_t)
  (ns : ns_world) (st : sm_state) :
  ts_handler st = NULL ->
  exists tl,
    trace (sm_wait_for_smcall (None :: Some a :: ns) st)
    = trace st
      ++ [E_enter_critical_section; E_thread_yield; E_sm_sched_nonsecure 0;
          E_exit_critical_section]
      ++ [E_enter_critical_section; E_thread_yield;
          E_sm_sched_nonsecure SM_ERR_UNEXPECTED_RESTART;
          E_exit_critical_section;
          E_dprintf "No service handler registered!"]
      ++ [E_enter_critical_section; E_thread_yield;
          E_sm_sched_nonsecure SM_ERR_NOT_SUPPORTED]
      ++ tl
    /\ switch_args (trace (sm_wait_for_smcall (None :: Some a :: ns) st))
       = switch_args (trace st)
         ++ [0; SM_ERR_UNEXPECTED_RESTART; SM_ERR_NOT_SUPPORTED]
         ++ switch_args tl
    /\ handler_calls (trace (sm_wait_for_smcall [None; Some a] st))
       = handler_calls (trace st).
Proof.
  intros Hh. unfold sm_wait_for_smcall.
  cbn [sm_wait_for_smcall_loop]. cbn [log ts_handler]. rewrite Hh. cbn [negb Z.eqb NULL].
  match goal with |- context [sm_wait_for_smcall_loop ns ?r ?s] =>
    destruct (sm_wait_for_smcall_loop_head ns r s) as [tl E] end.
  exists tl. split; [|split].
  - rewrite E. cbn [trace log]. rewrite <- ?app_assoc. reflexivity.
  - rewrite E. cbn [trace log]. rewrite !switch_args_app. cbn [switch_args].
    rewrite <- ?app_assoc, ?app_nil_r. reflexivity.
  - cbn [trace log]. rewrite !handler_calls_app. cbn [handler_calls].
    rewrite ?app_nil_r. reflexivity.
Qed.

(** C8: when the primitive answers with a request twice and then with null,
    [sm_handle_irq] calls it exactly three times, first with
    [SM_ERR_INTERRUPTED] and then twice with [SM_ERR_INTERLEAVED_SMC], and
    returns [INT_NO_RESCHEDULE]; nothing else changes. *)
Theorem sm_handle_irq_drains (a b : ts_args_t) (ns : ns_world)
  (st : sm_state) :
  sm_handle_irq (Some a :: Some b :: None :: ns) st
  = (Some INT_NO_RESCHEDULE,
     log (E_sm_sched_nonsecure SM_ERR_INTERLEAVED_SMC)
       (log (E_sm_sched_nonsecure SM_ERR_INTERLEAVED_SMC)
          (log (E_sm_sched_nonsecure SM_ERR_INTERRUPTED) st)))
  /\ trace (snd (sm_handle_irq (Some a :: Some b :: None :: ns) st))
     = trace st
       ++ [E_sm_sched_nonsecure SM_ERR_INTERRUPTED;
           E_sm_sched_nonsecure SM_ERR_INTERLEAVED_SMC;
           E_sm_sched_nonsecure SM_ERR_INTERLEAVED_SMC]
  /\ length (switch_args
               (trace (snd (sm_handle_irq (Some a :: Some b :: None :: ns)
                              st))))
     = (length (switch_args (trace st)) + 3)%nat.
Proof.
  split; [reflexivity|]. split.
  - simpl. rewrite <- !app_assoc. reflexivity.
  - simpl. rewrite !switch_args_app, !length_app. simpl. lia.
Qed.

(** C9, amended: in every iteration in which the primitive answers null the
    loop sets the pending result to [SM_ERR_UNEXPECTED_RESTART], leaves the
    critical section by the one [exit_critical_section] that matches the
    iteration's [enter_critical_section] (the nesting depth is back where
    the iteration found it), dispatches no handler and logs nothing, and
    goes on to the next iteration, which enters the critical section again
    before it yields and switches with that result. *)
Theorem sm_wait_for_smcall_null_iteration (ns : ns_world) (ret : Z)
  (st : sm_state) :
  let iteration :=
    [E_enter_critical_section; E_thread_yield; E_sm_sched_nonsecure ret;
     E_exit_critical_section] in
  let st' := fold_left (fun s e => log e s) iteration st in
  sm_wait_for_smcall_loop (None :: ns) ret st
  = sm_wait_for_smcall_loop ns SM_ERR_UNEXPECTED_RESTART st'
  /\ trace st' = trace st ++ iteration
  /\ (forall d, cs_depth d iteration = d)
  /\ exists tl,
       trace (sm_wait_for_smcall_loop (None :: ns) ret st)
       = trace st ++ iteration
         ++ [E_enter_critical_section; E_thread_yield;
             E_sm_sched_nonsecure SM_ERR_UNEXPECTED_RESTART]
         ++ tl.
Proof.
  cbn zeta. split; [reflexivity|]. split.
  - simpl. rewrite <- !app_assoc. reflexivity.
  - split.
    + intros d. simpl. lia.
    + cbn [sm_wait_for_smcall_loop].
      match goal with |- context [sm_wait_for_smcall_loop ns ?r ?s] =>
        destruct (sm_wait_for_smcall_loop_head ns r s) as [tl E] end.
      exists tl. rewrite E. simpl. rewrite <- !app_assoc. reflexivity.
Qed.

(** ** Boot arguments: one call *)

Lemma sm_get_boot_args_mapped (p q : Z) (st : sm_state) :
  p <> NULL -> q <> NULL -> boot_args st <> NULL ->
  sm_get_boot_args p q st
  = (NO_ERROR,
     log E_mutex_release
       (store q (snd (sm_platform_boot_args st))
          (store p (boot_args st)
             (set_boot_args_refcnt (int_of (boot_args_refcnt st + 1))
                (log E_mutex_acquire st))))).
Proof.
  intros Hp Hq Hb. unfold sm_get_boot_args.
  apply Z.eqb_neq in Hp, Hq, Hb. rewrite Hp, Hq. simpl. rewrite Hb.
  reflexivity.
Qed.

Lemma sm_put_boot_args_none (st : sm_state) :
  boot_args st = NULL ->
  sm_put_boot_args st
  = log E_mutex_release
      (log (E_TRACEF
              "WARNING: caller does not own a reference to boot parameters")
         (log E_mutex_acquire st)).
Proof.
  intros Hb. unfold sm_put_boot_args. simpl. rewrite Hb. reflexivity.
Qed.

Lemma sm_put_boot_args_keep (st : sm_state) :
  boot_args st <> NULL ->
  int_of (boot_args_refcnt st - 1) <> 0 ->
  sm_put_boot_args st
  = log E_mutex_release
      (set_boot_args_refcnt (int_of (boot_args_refcnt st - 1))
         (log E_mutex_acquire st)).
Proof.
  intros Hb Hc. unfold sm_put_boot_args. simpl.
  apply Z.eqb_neq in Hb, Hc. rewrite Hb, Hc. reflexivity.
Qed.

Lemma sm_put_boot_args_last (st : sm_state) :
  boot_args st <> NULL ->
  int_of (boot_args_refcnt st - 1) = 0 ->
  sm_put_boot_args st
  = log E_mutex_release
      (log (E_thread_resume (nsthread st))
         (set_boot_args NULL
            (log (E_kunmap (boot_args st) (snd (sm_platform_boot_args st)))
               (set_boot_args_refcnt 0 (log E_mutex_acquire st))))).
Proof.
  intros Hb Hc. unfold sm_put_boot_args. simpl.
  apply Z.eqb_neq in Hb. rewrite Hb, Hc. reflexivity.
Qed.

Lemma same_view_refl (st : sm_state) : same_view st st.
Proof. repeat split. Qed.

Lemma same_view_trans (st1 st2 st3 : sm_state) :
  same_view st1 st2 -> same_view st2 st3 -> same_view st1 st3.
Proof.
  unfold same_view. intros (A1 & A2 & A3 & A4) (B1 & B2 & B3 & B4).
  repeat split; congruence.
Qed.

(** ** Boot arguments: acquisitions and releases in a row *)

(** While a view is mapped every acquisition through valid slots succeeds
    and adds one to the count, in [int] arithmetic. *)
Lemma get_all_mapped (ptrs : list (Z * Z)) (st : sm_state) :
  boot_args st <> NULL ->
  int_range (boot_args_refcnt st) ->
  Forall valid_slots ptrs ->
  fst (get_all ptrs st) = replicate (length ptrs) NO_ERROR
  /\ same_view st (snd (get_all ptrs st))
  /\ boot_args_refcnt (snd (get_all ptrs st))
     = int_of (boot_args_refcnt st + Z.of_nat (length ptrs)).
Proof.
  intros Hb Hr Hv. revert st Hb Hr.
  induction Hv as [|[p q] ptrs [Hp Hq] Hv IH]; intros st Hb Hr.
  - simpl. rewrite Z.add_0_r, int_of_id by exact Hr.
    repeat split.
  - cbn [get_all]. simpl in Hp, Hq.
    rewrite (sm_get_boot_args_mapped p q st Hp Hq Hb).
    match goal with |- context [get_all ptrs ?s] =>
      destruct (IH s) as (E1 & E2 & E3);
      [exact Hb | apply int_of_range |];
      destruct (get_all ptrs s) as [rs st2] eqn:G end.
    simpl in E1, E2, E3 |- *. split; [|split].
    + rewrite E1. reflexivity.
    + eapply same_view_trans; [|exact E2].
      unfold same_view. simpl. rewrite List.filter_app. simpl.
      rewrite List.filter_app. simpl. rewrite !app_nil_r. repeat split.
    + rewrite E3, int_of_add. f_equal. lia.
Qed.

Lemma put_all_app (j k : nat) (st : sm_state) :
  put_all (j + k) st = put_all k (put_all j st).
Proof.
  revert st. induction j as [|j IH]; intros st; simpl; [reflexivity|].
  apply IH.
Qed.

(** Releases that leave references behind keep the view: with [c]
    references counted, [c] at most 2^32, fewer than [c] releases neither
    unmap nor clear the view pointer. *)
Lemma put_all_mapped (k : nat) (c : Z) (st : sm_state) :
  boot_args st <> NULL ->
  boot_args_refcnt st = int_of c ->
  Z.of_nat k < c <= 4294967296 ->
  same_view st (put_all k st)
  /\ boot_args_refcnt (put_all k st) = int_of (c - Z.of_nat k).
Proof.
  revert c st. induction k as [|k IH]; intros c st Hb Hc Hk.
  - simpl. rewrite Z.sub_0_r. split; [apply same_view_refl|exact Hc].
  - cbn [put_all].
    assert (Hnz : int_of (boot_args_refcnt st - 1) <> 0).
    { rewrite Hc, int_of_sub. apply int_of_nonzero. lia. }
    rewrite (sm_put_boot_args_keep st Hb Hnz).
    match goal with |- context [put_all k ?s] =>
      destruct (IH (c - 1) s) as (E1 & E2) end.
    + exact Hb.
    + simpl. rewrite Hc, int_of_sub. reflexivity.
    + lia.
    + split.
      * eapply same_view_trans; [|exact E1].
        unfold same_view. simpl. rewrite !List.filter_app. simpl.
        rewrite !app_nil_r. repeat split.
      * rewrite E2. f_equal. lia.
Qed.

(** Once the view is gone, releases only warn. *)
Lemma put_all_unmapped (k : nat) (st : sm_state) :
  boot_args st = NULL ->
  same_view st (put_all k st)
  /\ boot_args_refcnt (put_all k st) = boot_args_refcnt st.
Proof.
  revert st. induction k as [|k IH]; intros st Hb.
  - simpl. split; [apply same_view_refl|reflexivity].
  - cbn [put_all]. rewrite (sm_put_boot_args_none st Hb).
    match goal with |- context [put_all k ?s] =>
      destruct (IH s) as (E1 & E2); [exact Hb|] end.
    split.
    + eapply same_view_trans; [|exact E1].
      unfold same_view. simpl. rewrite !List.filter_app. simpl.
      rewrite !app_nil_r. repeat split.
    + rewrite E2. reflexivity.
Qed.

(** ** Boot arguments: the contract of each call *)

(** C5: released without a view, [sm_put_boot_args] takes the lock, logs
    the warning and drops the lock; the count is not decremented, nothing
    is unmapped, and apart from these three trace entries the state is
    what it was. *)
Theorem sm_put_boot_args_without_view (st : sm_state) :
  boot_args st = NULL ->
  sm_put_boot_args st
  = log E_mutex_release
      (log (E_TRACEF
              "WARNING: caller does not own a reference to boot parameters")
         (log E_mutex_acquire st))
  /\ boot_args_refcnt (sm_put_boot_args st) = boot_args_refcnt st
  /\ boot_args (sm_put_boot_args st) = NULL
  /\ trace (sm_put_boot_args st)
     = trace st
       ++ [E_mutex_acquire;
           E_TRACEF
             "WARNING: caller does not own a reference to boot parameters";
           E_mutex_release]
  /\ List.filter is_kunmap (trace (sm_put_boot_args st))
     = List.filter is_kunmap (trace st).
Proof.
  intros Hb. rewrite (sm_put_boot_args_none st Hb). simpl.
  rewrite <- !app_assoc. simpl. repeat split; try assumption.
  rewrite List.filter_app. simpl. apply app_nil_r.
Qed.

(** C4, amended: [sm_get_boot_args] returns [ERR_INVALID_ARGS] and leaves
    the state alone when an output pointer is null; otherwise, without a
    view, it returns [ERR_NOT_CONFIGURED] and only the lock is taken and
    dropped; otherwise it returns [NO_ERROR], stores the view pointer and
    the platform size through the two pointers, and adds one to the count
    in [int] arithmetic, which is exactly one more whenever the count is
    below [INT_MAX]. *)
Theorem sm_get_boot_args_contract (p q : Z) (st : sm_state) :
  let r := sm_get_boot_args p q st in
  (p = NULL \/ q = NULL -> r = (ERR_INVALID_ARGS, st))
  /\ (p <> NULL -> q <> NULL -> boot_args st = NULL ->
      r = (ERR_NOT_CONFIGURED, log E_mutex_release (log E_mutex_acquire st))
      /\ boot_args_refcnt (snd r) = boot_args_refcnt st)
  /\ (p <> NULL -> q <> NULL -> boot_args st <> NULL ->
      fst r = NO_ERROR
      /\ memory (snd r)
         = <[q := snd (sm_platform_boot_args st)]>
             (<[p := boot_args st]> (memory st))
      /\ boot_args (snd r) = boot_args st
      /\ sm_platform_boot_args (snd r) = sm_platform_boot_args st
      /\ trace (snd r) = trace st ++ [E_mutex_acquire; E_mutex_release]
      /\ boot_args_refcnt (snd r) = int_of (boot_args_refcnt st + 1)
      /\ (INT_MIN <= boot_args_refcnt st < INT_MAX ->
          boot_args_refcnt (snd r) = boot_args_refcnt st + 1)).
Proof.
  cbn zeta. split; [|split].
  - unfold sm_get_boot_args. intros [-> | ->]; simpl; [reflexivity|].
    rewrite orb_true_r. reflexivity.
  - intros Hp Hq Hb. unfold sm_get_boot_args.
    apply Z.eqb_neq in Hp, Hq. rewrite Hp, Hq. simpl. rewrite Hb. simpl.
    split; reflexivity.
  - intros Hp Hq Hb. rewrite (sm_get_boot_args_mapped p q st Hp Hq Hb).
    simpl. rewrite <- app_assoc. repeat split.
    intros Hr. apply int_of_id. unfold int_range, INT_MIN, INT_MAX in *. lia.
Qed.

(** ** Boot arguments: no region *)

Lemma do_call_no_region (c : sm_call) (st : sm_state) :
  no_region st ->
  no_region (state_of (do_call c st))
  /\ (is_sm_init c = false ->
      nsthread (state_of (do_call c st)) = nsthread st).
Proof.
  unfold no_region. intros (Hz & Hb & Hk & Hu). destruct c as [kmap thr|p q|].
  - split; [|discriminate]. cbn [do_call]. unfold sm_init.
    assert (Hc : negb (fst (sm_platform_boot_args (log E_mutex_acquire st)) =? 0)
                 && negb (snd (sm_platform_boot_args (log E_mutex_acquire st)) =? 0)
                 = false).
    { simpl. destruct Hz as [-> | ->]; simpl; [reflexivity|].
      apply andb_false_r. }
    rewrite Hc. destruct (thr =? NULL); simpl;
      rewrite ?List.filter_app, Hk, Hu; simpl; auto.
  - split; [|intros _]; cbn [do_call state_of]; unfold sm_get_boot_args;
      destruct ((p =? NULL) || (q =? NULL)); simpl; auto;
      rewrite Hb; simpl; auto.
    rewrite ?List.filter_app, Hk, Hu. simpl. auto.
  - split; [|intros _]; cbn [do_call state_of];
      rewrite (sm_put_boot_args_none st Hb); simpl; auto.
    rewrite ?List.filter_app, Hk, Hu. simpl. auto.
Qed.

Lemma run_no_region (cs : list sm_call) (st : sm_state) :
  no_region st ->
  no_region (run cs st)
  /\ (forallb (fun c => negb (is_sm_init c)) cs = true ->
      nsthread (run cs st) = nsthread st).
Proof.
  revert st. induction cs as [|c cs IH]; intros st Hn; [auto|].
  destruct (do_call_no_region c st Hn) as [H1 H2].
  cbn [run forallb]. destruct (do_call c st) as [st'|st'] eqn:E; simpl in H1, H2.
  - destruct (IH st' H1) as [H3 H4]. split; [exact H3|].
    intros Hf. apply andb_true_iff in Hf as [Hc Hf].
    rewrite H4 by exact Hf. apply H2. apply negb_true_iff. exact Hc.
  - split; [exact H1|]. intros Hf. apply andb_true_iff in Hf as [Hc Hf].
    apply H2. apply negb_true_iff. exact Hc.
Qed.

(** C6: when the boot loader passes a zero address or a zero size,
    [sm_init] maps nothing; after it, and after any further calls, every
    [sm_get_boot_args] with valid output pointers returns
    [ERR_NOT_CONFIGURED], and [sm_release_boot_args] does nothing but
    resume the dispatch thread: no unmap, no warning. *)
Theorem sm_init_without_region (pa size : Z) (kmap : status_t * Z) (thr : Z)
  (cs : list sm_call) :
  pa = 0 \/ size = 0 ->
  thr <> NULL ->
  exists st1,
    sm_init kmap thr (boot_state pa size) = Returned st1
    /\ trace st1 = [E_mutex_acquire; E_mutex_release; E_thread_create]
    /\ boot_args st1 = NULL
    /\ nsthread st1 = thr
    /\ let st2 := run cs st1 in
       boot_args st2 = NULL
       /\ List.filter is_kmap_contig (trace st2) = []
       /\ List.filter is_kunmap (trace st2) = []
       /\ (forall p q, p <> NULL -> q <> NULL ->
           fst (sm_get_boot_args p q st2) = ERR_NOT_CONFIGURED)
       /\ sm_release_boot_args st2 = log (E_thread_resume (nsthread st2)) st2
       /\ (forallb (fun c => negb (is_sm_init c)) cs = true ->
           nsthread st2 = thr).
Proof.
  intros Hz Hthr. unfold sm_init.
  assert (Hc : negb (fst (sm_platform_boot_args
                            (log E_mutex_acquire (boot_state pa size))) =? 0)
               && negb (snd (sm_platform_boot_args
                               (log E_mutex_acquire (boot_state pa size))) =? 0)
               = false).
  { simpl. destruct Hz as [-> | ->]; simpl; [reflexivity|].
    apply andb_false_r. }
  rewrite Hc. apply Z.eqb_neq in Hthr as Hb. rewrite Hb.
  eexists. split; [reflexivity|]. simpl.
  split; [reflexivity|]. split; [reflexivity|]. split; [reflexivity|].
  match goal with |- context [run cs ?s] =>
    destruct (run_no_region cs s) as [(_ & B & K & U) N];
    [unfold no_region; simpl; auto|] end.
  split; [exact B|]. split; [exact K|]. split; [exact U|]. split; [|split].
  - intros p q Hp Hq. unfold sm_get_boot_args.
    apply Z.eqb_neq in Hp, Hq. rewrite Hp, Hq. simpl. rewrite B. reflexivity.
  - unfold sm_release_boot_args. rewrite B. simpl. rewrite B. reflexivity.
  - exact N.
Qed.

(** ** Boot arguments: the reference count *)

Lemma sm_put_boot_args_counted (st : sm_state) :
  counted st -> counted (sm_put_boot_args st).
Proof.
  unfold counted, view_iff_counted, NULL, INT_MAX. intros [Hv Hr].
  destruct (Z.eq_dec (boot_args st) 0) as [Hb|Hb].
  - rewrite (sm_put_boot_args_none st Hb). simpl. auto.
  - assert (Hid : int_of (boot_args_refcnt st - 1) = boot_args_refcnt st - 1).
    { apply int_of_id. unfold int_range, INT_MIN, INT_MAX. lia. }
    destruct (Z.eq_dec (boot_args_refcnt st) 1) as [H1|H1].
    + rewrite sm_put_boot_args_last by (rewrite ?Hid; unfold NULL; lia).
      simpl. unfold NULL. lia.
    + rewrite sm_put_boot_args_keep by (rewrite ?Hid; unfold NULL; lia).
      simpl. rewrite Hid. unfold NULL. lia.
Qed.

Lemma sm_get_boot_args_counted (p q : Z) (st : sm_state) :
  counted st ->
  admissible (call_sm_get_boot_args p q) st = true ->
  counted (snd (sm_get_boot_args p q st)).
Proof.
  unfold counted, view_iff_counted, admissible, NULL, INT_MAX.
  intros [Hv Hr] Ha. unfold sm_get_boot_args, NULL.
  destruct ((p =? 0) || (q =? 0)); simpl in Ha |- *; [auto|].
  destruct (Z.eqb_spec (boot_args st) 0) as [Hb|Hb]; simpl in Ha |- *; [auto|].
  apply Z.ltb_lt in Ha.
  rewrite int_of_id by (unfold int_range, INT_MIN, INT_MAX; lia). lia.
Qed.

Lemma sm_init_counted (kmap : status_t * Z) (thr : Z) (st : sm_state) :
  counted st ->
  admissible (call_sm_init kmap thr) st = true ->
  counted (state_of (sm_init kmap thr st)).
Proof.
  unfold counted, view_iff_counted, NULL, INT_MAX. intros [Hv Hr].
  unfold admissible, sm_init, NULL, INT_MAX. cbn [log sm_platform_boot_args].
  destruct (negb (fst (sm_platform_boot_args st) =? 0)
            && negb (snd (sm_platform_boot_args st) =? 0)).
  - destruct kmap as [err va]. cbn [fst snd].
    destruct err; intros Ha;
      try (apply Z.eqb_eq in Ha;
           destruct (thr =? 0); simpl; lia).
    apply andb_true_iff in Ha as [Hva Hlt].
    apply negb_true_iff, Z.eqb_neq in Hva. apply Z.ltb_lt in Hlt.
    destruct (thr =? 0); simpl;
      rewrite int_of_id by (unfold int_range, INT_MIN, INT_MAX; lia); lia.
  - intros _. destruct (thr =? 0); simpl; auto.
Qed.

Lemma do_call_counted (c : sm_call) (st : sm_state) :
  counted st ->
  admissible c st = true ->
  counted (state_of (do_call c st)).
Proof.
  intros Hc Ha. destruct c as [kmap thr|p q|]; cbn [do_call state_of].
  - apply sm_init_counted; assumption.
  - apply sm_get_boot_args_counted; assumption.
  - apply sm_put_boot_args_counted. assumption.
Qed.

Lemma run_counted (cs : list sm_call) (st : sm_state) :
  counted st ->
  admissible_run cs st = true ->
  counted (run cs st).
Proof.
  revert st. induction cs as [|c cs IH]; intros st Hc Ha; [exact Hc|].
  cbn [admissible_run run] in *. apply andb_true_iff in Ha as [Ha Hr].
  pose proof (do_call_counted c st Hc Ha) as Hc'.
  destruct (do_call c st) as [st'|st']; simpl in Hc'; auto.
Qed.

Lemma admissible_run_prefix (cs1 cs2 : list sm_call) (st : sm_state) :
  admissible_run (cs1 ++ cs2) st = true -> admissible_run cs1 st = true.
Proof.
  revert st. induction cs1 as [|c cs1 IH]; intros st Ha; [reflexivity|].
  cbn [app admissible_run] in *. apply andb_true_iff in Ha as [Ha Hr].
  rewrite Ha. simpl. destruct (do_call c st); auto.
Qed.

(** C2, amended: every call among [sm_init], [sm_get_boot_args] and
    [sm_put_boot_args] keeps "a view is mapped exactly when the count is
    positive" (with a count between 0 and [INT_MAX]) provided the call is
    admissible: the count is below [INT_MAX] when it is incremented, a
    successful [kmap_contig] stored a non-null address, and [kmap_contig]
    does not fail while a view is mapped.  Hence the invariant holds in
    every state passed through from boot by admissible calls. *)
Theorem refcount_invariant (c : sm_call) (st : sm_state) (pa size : Z)
  (cs1 cs2 : list sm_call) :
  (counted st -> admissible c st = true ->
   counted (state_of (do_call c st)))
  /\ (admissible_run (cs1 ++ cs2) (boot_state pa size) = true ->
      view_iff_counted (run cs1 (boot_state pa size))
      /\ 0 <= boot_args_refcnt (run cs1 (boot_state pa size)) <= INT_MAX).
Proof.
  split.
  - apply do_call_counted.
  - intros Ha. apply run_counted.
    + unfold counted, view_iff_counted, boot_state, INT_MAX. simpl.
      unfold NULL. lia.
    + apply (admissible_run_prefix cs1 cs2). exact Ha.
Qed.

(** What [sm_init] leaves when the region is mapped. *)
Lemma sm_init_mapped (pa size va thr : Z) :
  pa <> 0 -> size <> 0 -> thr <> NULL ->
  sm_init (NO_ERROR, va) thr (boot_state pa size)
  = Returned
      (mk_sm_state NULL (pa, size) va 1 thr ∅
         [E_mutex_acquire; E_kmap_contig pa size; E_mutex_release;
          E_thread_create]).
Proof.
  intros Hpa Hsz Hthr. unfold sm_init.
  apply Z.eqb_neq in Hpa, Hsz, Hthr. simpl. rewrite Hpa, Hsz, Hthr.
  reflexivity.
Qed.

(** C3, amended: after [sm_init] has mapped a view, [n] acquisitions
    through valid slots all succeed, for any [n] below 2^32; of the
    releases that follow, the first [n] leave the view mapped and unmap
    nothing, release [n + 1] unmaps it, and however many releases are made
    the view is unmapped once only. *)
Theorem view_unmapped_by_last_release (pa size va thr : Z)
  (ptrs : list (Z * Z)) (k : nat) :
  pa <> 0 -> size <> 0 -> va <> NULL -> thr <> NULL ->
  Forall valid_slots ptrs ->
  Z.of_nat (length ptrs) < 4294967296 ->
  exists st1,
    sm_init (NO_ERROR, va) thr (boot_state pa size) = Returned st1
    /\ boot_args st1 = va
    /\ boot_args_refcnt st1 = 1
    /\ fst (get_all ptrs st1) = replicate (length ptrs) NO_ERROR
    /\ let st3 := put_all k (snd (get_all ptrs st1)) in
       ((k <= length ptrs)%nat ->
        boot_args st3 = va /\ List.filter is_kunmap (trace st3) = [])
       /\ ((length ptrs < k)%nat ->
           boot_args st3 = NULL
           /\ List.filter is_kunmap (trace st3) = [E_kunmap va size]).
Proof.
  intros Hpa Hsz Hva Hthr Hv Hn.
  rewrite (sm_init_mapped pa size va thr Hpa Hsz Hthr).
  eexists. split; [reflexivity|].
  set (st1 := mk_sm_state _ _ _ _ _ _ _).
  split; [reflexivity|]. split; [reflexivity|].
  destruct (get_all_mapped ptrs st1) as (E1 & (B2 & P2 & T2 & U2) & C2);
    [exact Hva | unfold int_range, INT_MIN, INT_MAX; simpl; lia | exact Hv |].
  set (st2 := snd (get_all ptrs st1)) in *.
  simpl in B2, P2, T2, U2, C2.
  split; [exact E1|]. cbn zeta. split.
  - intros Hk.
    destruct (put_all_mapped k (1 + Z.of_nat (length ptrs)) st2)
      as ((B3 & _ & _ & U3) & _); [congruence | exact C2 | lia |].
    split; congruence.
  - intros Hk.
    replace k with (length ptrs + S (k - S (length ptrs)))%nat by lia.
    rewrite put_all_app. cbn [put_all].
    destruct (put_all_mapped (length ptrs) (1 + Z.of_nat (length ptrs)) st2)
      as ((B3 & P3 & T3 & U3) & C3); [congruence | exact C2 | lia |].
    set (st3 := put_all (length ptrs) st2) in *.
    assert (Hb3 : boot_args st3 <> NULL) by congruence.
    assert (Hz : int_of (boot_args_refcnt st3 - 1) = 0).
    { rewrite C3, int_of_sub.
      replace (1 + Z.of_nat (length ptrs) - Z.of_nat (length ptrs) - 1)
        with 0 by lia.
      reflexivity. }
    rewrite (sm_put_boot_args_last st3 Hb3 Hz).
    match goal with |- context [put_all ?j ?s] =>
      destruct (put_all_unmapped j s) as ((B4 & _ & _ & U4) & _);
      [reflexivity|] end.
    rewrite B4, U4. simpl. split; [reflexivity|].
    rewrite !List.filter_app. simpl. rewrite !app_nil_r.
    rewrite U3, U2, P3, P2, B3, B2. reflexivity.
Qed.

(** Acquisitions in a row, as a sequence of calls. *)
Lemma run_replicate_get (n : nat) (p q : Z) (st : sm_state) :
  run (replicate n (call_sm_get_boot_args p q)) st
  = snd (get_all (replicate n (p, q)) st).
Proof.
  revert st. induction n as [|n IH]; intros st; [reflexivity|].
  cbn [replicate run do_call get_all]. rewrite IH.
  destruct (sm_get_boot_args p q st) as [r st1]. cbn [snd].
  destruct (get_all (replicate n (p, q)) st1). reflexivity.
Qed.

(** With a view mapped and one reference counted, [n] acquisitions leave
    the count at [1 + n] reduced to an [int]. *)
Lemma get_all_replicate_refcnt (n : nat) (p q : Z) (st : sm_state) :
  p <> NULL -> q <> NULL ->
  boot_args st <> NULL ->
  boot_args_refcnt st = 1 ->
  fst (get_all (replicate n (p, q)) st) = replicate n NO_ERROR
  /\ boot_args (snd (get_all (replicate n (p, q)) st)) = boot_args st
  /\ boot_args_refcnt (snd (get_all (replicate n (p, q)) st))
     = int_of (1 + Z.of_nat n).
Proof.
  intros Hp Hq Hb Hc.
  destruct (get_all_mapped (replicate n (p, q)) st) as (E1 & (B & _) & C).
  - exact Hb.
  - rewrite Hc. unfold int_range, INT_MIN, INT_MAX. lia.
  - apply Forall_replicate. split; assumption.
  - rewrite length_replicate in E1, C. rewrite Hc in C. auto.
Qed.

(** [sm_init] maps the view, then [n] acquisitions are made. *)
Lemma run_init_gets (n : nat) (pa size va thr p q : Z) :
  pa <> 0 -> size <> 0 -> va <> NULL -> thr <> NULL ->
  p <> NULL -> q <> NULL ->
  boot_args
    (run (call_sm_init (NO_ERROR, va) thr
            :: replicate n (call_sm_get_boot_args p q))
       (boot_state pa size)) = va
  /\ boot_args_refcnt
       (run (call_sm_init (NO_ERROR, va) thr
               :: replicate n (call_sm_get_boot_args p q))
          (boot_state pa size)) = int_of (1 + Z.of_nat n).
Proof.
  intros Hpa Hsz Hva Hthr Hp Hq. cbn [run do_call].
  rewrite (sm_init_mapped pa size va thr Hpa Hsz Hthr).
  rewrite run_replicate_get.
  match goal with |- context [get_all _ ?s] =>
    destruct (get_all_replicate_refcnt n p q s Hp Hq Hva eq_refl)
      as (_ & B & C) end.
  split; assumption.
Qed.

(** * Further properties *)

(** ** The dispatch loop on any answers *)

Lemma cs_depth_app (d : Z) (l1 l2 : list event) :
  cs_depth d (l1 ++ l2) = cs_depth (cs_depth d l1) l2.
Proof.
  revert d. induction l1 as [|e l1 IH]; intros d; [reflexivity|].
  destruct e; simpl; apply IH.
Qed.

Lemma dispatch_discipline_app (d : Z) (l1 l2 : list event) :
  dispatch_discipline d (l1 ++ l2)
  = dispatch_discipline d l1 && dispatch_discipline (cs_depth d l1) l2.
Proof.
  revert d. induction l1 as [|e l1 IH]; intros d; [reflexivity|].
  destruct e; simpl; rewrite ?IH, ?andb_assoc; reflexivity.
Qed.

Lemma same_statics_refl (st : sm_state) : same_statics st st.
Proof. repeat split. Qed.

Lemma same_statics_trans (st1 st2 st3 : sm_state) :
  same_statics st1 st2 -> same_statics st2 st3 -> same_statics st1 st3.
Proof.
  unfold same_statics.
  intros (A1 & A2 & A3 & A4 & A5 & A6) (B1 & B2 & B3 & B4 & B5 & B6).
  repeat split; congruence.
Qed.

Lemma same_statics_log (e : event) (st : sm_state) :
  same_statics st (log e st).
Proof. repeat split. Qed.

(** X1: each switch is passed the result of the iteration before it: the
    initial 0, then for every answer of the primitive the restart error
    after a null answer, the handler's result after a request when a
    handler is registered, and the not-supported error otherwise.  The
    primitive is called once more than it answers. *)
Theorem sm_wait_for_smcall_switch_args (ns : ns_world) (st : sm_state) :
  switch_args (trace (sm_wait_for_smcall ns st))
  = switch_args (trace st)
    ++ 0 :: map (iteration_result (ts_handler st)) ns
  /\ length (switch_args (trace (sm_wait_for_smcall ns st)))
     = (length (switch_args (trace st)) + S (length ns))%nat.
Proof.
  assert (H : forall ns ret st,
             switch_args (trace (sm_wait_for_smcall_loop ns ret st))
             = switch_args (trace st)
               ++ ret :: map (iteration_result (ts_handler st)) ns).
  { clear ns st. induction ns as [|[a|] ns IH]; intros ret st.
    - simpl. rewrite !switch_args_app. simpl. rewrite !app_nil_r. reflexivity.
    - cbn [sm_wait_for_smcall_loop map iteration_result].
      cbn [log ts_handler].
      destruct (negb (ts_handler st =? NULL)); rewrite IH; simpl;
        rewrite !switch_args_app; simpl; rewrite ?app_nil_r, <- ?app_assoc;
        reflexivity.
    - cbn [sm_wait_for_smcall_loop map iteration_result]. rewrite IH. simpl.
      rewrite !switch_args_app. simpl. rewrite ?app_nil_r, <- ?app_assoc.
      reflexivity. }
  unfold sm_wait_for_smcall. rewrite H. split; [reflexivity|].
  rewrite length_app. simpl. rewrite length_map. reflexivity.
Qed.

(** X2: the dispatch thread, started outside any critical section, yields and
    switches only inside one and calls the handler and logs only outside;
    it is left waiting in the primitive at nesting depth 1. *)
Theorem sm_wait_for_smcall_critical_sections (ns : ns_world)
  (st : sm_state) :
  dispatch_discipline 0 (trace st) = true ->
  cs_depth 0 (trace st) = 0 ->
  dispatch_discipline 0 (trace (sm_wait_for_smcall ns st)) = true
  /\ cs_depth 0 (trace (sm_wait_for_smcall ns st)) = 1.
Proof.
  assert (H : forall ns ret st,
             dispatch_discipline 0 (trace st) = true ->
             cs_depth 0 (trace st) = 0 ->
             dispatch_discipline 0 (trace (sm_wait_for_smcall_loop ns ret st))
             = true
             /\ cs_depth 0 (trace (sm_wait_for_smcall_loop ns ret st)) = 1).
  { clear ns st. induction ns as [|[a|] ns IH]; intros ret st Hd Hc.
    - simpl. rewrite !dispatch_discipline_app, !cs_depth_app, Hd, Hc.
      split; reflexivity.
    - cbn [sm_wait_for_smcall_loop]. cbn [log ts_handler].
      destruct (negb (ts_handler st =? NULL)); apply IH; simpl;
        rewrite ?dispatch_discipline_app, ?cs_depth_app, ?Hd, ?Hc;
        reflexivity.
    - cbn [sm_wait_for_smcall_loop]. apply IH; simpl;
        rewrite ?dispatch_discipline_app, ?cs_depth_app, ?Hd, ?Hc;
        reflexivity. }
  intros Hd Hc. apply H; assumption.
Qed.

(** X3: neither the dispatch loop nor the IRQ routine writes the registry, the
    boot-argument state or caller memory: only the trace grows. *)
Theorem dispatch_and_irq_leave_statics (ns : ns_world) (st : sm_state) :
  same_statics st (sm_wait_for_smcall ns st)
  /\ same_statics st (snd (sm_handle_irq ns st)).
Proof.
  split.
  - unfold sm_wait_for_smcall. generalize 0 as ret. revert st.
    induction ns as [|[a|] ns IH]; intros st ret.
    + repeat split.
    + cbn [sm_wait_for_smcall_loop]. cbn [log ts_handler].
      destruct (negb (ts_handler st =? NULL));
        (eapply same_statics_trans; [|apply IH]); repeat split.
    + cbn [sm_wait_for_smcall_loop].
      eapply same_statics_trans; [|apply IH]. repeat split.
  - assert (H : forall ns s, same_statics s (snd (sm_handle_irq_loop ns s))).
    { clear ns st. induction ns as [|[a|] ns IH]; intros s.
      - apply same_statics_refl.
      - cbn [sm_handle_irq_loop].
        exact (same_statics_trans _ _ _
                 (same_statics_log
                    (E_sm_sched_nonsecure SM_ERR_INTERLEAVED_SMC) s)
                 (IH _)).
      - apply same_statics_refl. }
    unfold sm_handle_irq.
    exact (same_statics_trans _ _ _
             (same_statics_log (E_sm_sched_nonsecure SM_ERR_INTERRUPTED) st)
             (H ns _)).
Qed.

(** ** The IRQ routine on any answers *)


(** ** The IRQ routine on any answers *)

Lemma sm_handle_irq_loop_requests (reqs : list ts_args_t) (ns : ns_world)
  (st : sm_state) :
  fst (sm_handle_irq_loop (map Some reqs ++ None :: ns) st)
  = Some INT_NO_RESCHEDULE
  /\ trace (snd (sm_handle_irq_loop (map Some reqs ++ None :: ns) st))
     = trace st
       ++ replicate (length reqs)
            (E_sm_sched_nonsecure SM_ERR_INTERLEAVED_SMC).
Proof.
  revert st. induction reqs as [|a reqs IH]; intros st.
  - simpl. rewrite app_nil_r. split; reflexivity.
  - cbn [map app sm_handle_irq_loop length replicate].
    destruct (IH (log (E_sm_sched_nonsecure SM_ERR_INTERLEAVED_SMC) st))
      as [E1 E2].
    rewrite E1, E2. simpl. rewrite <- app_assoc. split; reflexivity.
Qed.

Lemma sm_handle_irq_loop_no_null (ns : ns_world) (st : sm_state) :
  ~ In None ns ->
  fst (sm_handle_irq_loop ns st) = None
  /\ trace (snd (sm_handle_irq_loop ns st))
     = trace st
       ++ replicate (length ns) (E_sm_sched_nonsecure SM_ERR_INTERLEAVED_SMC).
Proof.
  revert st. induction ns as [|[a|] ns IH]; intros st Hn.
  - simpl. rewrite app_nil_r. split; reflexivity.
  - cbn [sm_handle_irq_loop length replicate].
    destruct (IH (log (E_sm_sched_nonsecure SM_ERR_INTERLEAVED_SMC) st))
      as [E1 E2].
    + intros Hin. apply Hn. right. exact Hin.
    + rewrite E1, E2. simpl. rewrite <- app_assoc. split; reflexivity.
  - exfalso. apply Hn. left. reflexivity.
Qed.

Lemma sm_handle_irq_loop_null (ns : ns_world) (st : sm_state) :
  In None ns -> fst (sm_handle_irq_loop ns st) = Some INT_NO_RESCHEDULE.
Proof.
  revert st. induction ns as [|[a|] ns IH]; intros st Hin.
  - destruct Hin.
  - cbn [sm_handle_irq_loop]. apply IH.
    destruct Hin as [Hin|Hin]; [discriminate Hin|exact Hin].
  - reflexivity.
Qed.

Lemma sm_handle_irq_loop_returns (ns : ns_world) (st : sm_state)
  (r : handler_return) :
  fst (sm_handle_irq_loop ns st) = Some r ->
  In None ns /\ r = INT_NO_RESCHEDULE.
Proof.
  revert st. induction ns as [|[a|] ns IH]; intros st Hr.
  - discriminate Hr.
  - cbn [sm_handle_irq_loop] in Hr. destruct (IH _ Hr) as [Hin ->].
    split; [right; exact Hin|reflexivity].
  - simpl in Hr. injection Hr as <-. split; [left|]; reflexivity.
Qed.

Lemma switch_args_replicate (n : nat) (ret : Z) :
  switch_args (replicate n (E_sm_sched_nonsecure ret)) = replicate n ret.
Proof.
  induction n as [|n IH]; simpl; [reflexivity|]. rewrite IH. reflexivity.
Qed.

(** X4: however many requests the primitive hands back before its first null
    answer, [sm_handle_irq] calls it once with [SM_ERR_INTERRUPTED] and once
    more with [SM_ERR_INTERLEAVED_SMC] for each of them, makes no other
    call, ignores whatever would be answered after the null, and returns
    [INT_NO_RESCHEDULE]. *)
Theorem sm_handle_irq_drains_all (reqs : list ts_args_t) (ns : ns_world)
  (st : sm_state) :
  fst (sm_handle_irq (map Some reqs ++ None :: ns) st)
  = Some INT_NO_RESCHEDULE
  /\ trace (snd (sm_handle_irq (map Some reqs ++ None :: ns) st))
     = trace st
       ++ E_sm_sched_nonsecure SM_ERR_INTERRUPTED
          :: replicate (length reqs)
               (E_sm_sched_nonsecure SM_ERR_INTERLEAVED_SMC)
  /\ length (switch_args
               (trace (snd (sm_handle_irq (map Some reqs ++ None :: ns) st))))
     = (length (switch_args (trace st)) + S (length reqs))%nat.
Proof.
  unfold sm_handle_irq.
  destruct (sm_handle_irq_loop_requests reqs ns
              (log (E_sm_sched_nonsecure SM_ERR_INTERRUPTED) st)) as [E1 E2].
  split; [exact E1|]. rewrite E2. simpl. rewrite <- app_assoc. simpl.
  split; [reflexivity|].
  rewrite switch_args_app, length_app. simpl.
  rewrite switch_args_replicate, length_replicate. reflexivity.
Qed.

(** X5: [sm_handle_irq] returns exactly when the primitive eventually answers
    null, and then with [INT_NO_RESCHEDULE]: it never asks for a
    reschedule.  As long as the primitive answers with requests the routine
    keeps calling it, once per answer. *)
Theorem sm_handle_irq_returns_iff_null (ns : ns_world) (st : sm_state) :
  (fst (sm_handle_irq ns st) = Some INT_NO_RESCHEDULE <-> In None ns)
  /\ fst (sm_handle_irq ns st) <> Some INT_RESCHEDULE
  /\ (~ In None ns ->
      fst (sm_handle_irq ns st) = None
      /\ trace (snd (sm_handle_irq ns st))
         = trace st
           ++ E_sm_sched_nonsecure SM_ERR_INTERRUPTED
              :: replicate (length ns)
                   (E_sm_sched_nonsecure SM_ERR_INTERLEAVED_SMC)).
Proof.
  unfold sm_handle_irq.
  set (st1 := log (E_sm_sched_nonsecure SM_ERR_INTERRUPTED) st).
  split; [split|split].
  - intros Hr. apply (sm_handle_irq_loop_returns ns st1 _ Hr).
  - apply sm_handle_irq_loop_null.
  - intros Hr. destruct (sm_handle_irq_loop_returns ns st1 _ Hr) as [_ H].
    discriminate H.
  - intros Hn. destruct (sm_handle_irq_loop_no_null ns st1 Hn) as [E1 E2].
    split; [exact E1|]. rewrite E2. unfold st1. simpl.
    rewrite <- app_assoc. reflexivity.
Qed.

(** ** The lock around the boot arguments *)

Lemma lock_discipline_app (held : bool) (l1 l2 : list event) :
  lock_discipline held (l1 ++ l2)
  = match lock_discipline held l1 with
    | Some held' => lock_discipline held' l2
    | None => None
    end.
Proof.
  revert held. induction l1 as [|e l1 IH]; intros held; [reflexivity|].
  destruct e; simpl; rewrite ?IH; try reflexivity; destruct held;
    reflexivity.
Qed.

Ltac lock_steps H :=
  simpl; repeat (rewrite lock_discipline_app; simpl); rewrite ?H; simpl;
  try reflexivity.

(** X6: [sm_init], [sm_get_boot_args], [sm_put_boot_args] and
    [sm_release_boot_args], called with [boot_args_lock] free, never take
    it twice, call [kmap_contig] and [kunmap] only while holding it, and
    leave it free on every path, including the error paths and the path
    that ends in [halt()]. *)
Theorem boot_args_lock_released (c : sm_call) (st : sm_state) :
  lock_discipline false (trace st) = Some false ->
  lock_discipline false (trace (state_of (do_call c st))) = Some false
  /\ lock_discipline false (trace (sm_release_boot_args st)) = Some false.
Proof.
  intros H.
  assert (Hput : lock_discipline false (trace (sm_put_boot_args st))
                 = Some false).
  { destruct (Z.eq_dec (boot_args st) NULL) as [Hb|Hb].
    - rewrite (sm_put_boot_args_none st Hb). lock_steps H.
    - destruct (Z.eq_dec (int_of (boot_args_refcnt st - 1)) 0) as [Hz|Hz].
      + rewrite (sm_put_boot_args_last st Hb Hz). lock_steps H.
      + rewrite (sm_put_boot_args_keep st Hb Hz). lock_steps H. }
  split.
  - destruct c as [[err va] thr|p q|]; cbn [do_call state_of].
    + unfold sm_init. cbn [log sm_platform_boot_args fst snd].
      destruct (negb (fst (sm_platform_boot_args st) =? 0)
                && negb (snd (sm_platform_boot_args st) =? 0));
        destruct (thr =? NULL); try destruct err; lock_steps H.
    + unfold sm_get_boot_args.
      destruct ((p =? NULL) || (q =? NULL)); [exact H|].
      cbn [log boot_args]. destruct (boot_args st =? NULL); lock_steps H.
    + exact Hput.
  - unfold sm_release_boot_args.
    destruct (negb (boot_args st =? NULL)).
    + destruct (negb (boot_args (sm_put_boot_args st) =? NULL));
        [|exact Hput].
      simpl. rewrite lock_discipline_app, Hput. reflexivity.
    + cbn [log boot_args]. destruct (negb (boot_args st =? NULL));
        lock_steps H.
Qed.

(** ** Acquisitions and releases in any order *)

(** As long as callers release only what they acquired, the view stays
    where [sm_init] mapped it: nothing is unmapped, the dispatch thread is
    not resumed, and the count is the one [outstanding] computes. *)
Lemma run_outstanding (cs : list sm_call) (c c' : Z) (st : sm_state) :
  boot_args st <> NULL ->
  boot_args_refcnt st = c ->
  1 <= c <= INT_MAX ->
  outstanding c cs = Some c' ->
  same_view st (run cs st)
  /\ boot_args_refcnt (run cs st) = c'
  /\ 1 <= c' <= INT_MAX
  /\ List.filter is_thread_resume (trace (run cs st))
     = List.filter is_thread_resume (trace st).
Proof.
  revert c st. induction cs as [|call cs IH]; intros c st Hb Hc Hr Ho.
  - simpl in Ho. injection Ho as <-.
    repeat split; try assumption; try lia.
  - destruct call as [kmap thr|p q|]; cbn [outstanding] in Ho.
    + discriminate Ho.
    + cbn [run do_call].
      destruct ((p =? NULL) || (q =? NULL)) eqn:Hpq.
      * unfold sm_get_boot_args. rewrite Hpq. cbn [snd].
        apply (IH c); assumption.
      * apply orb_false_iff in Hpq as [Hp Hq].
        apply Z.eqb_neq in Hp, Hq.
        destruct (c <? INT_MAX) eqn:Hlt; [|discriminate Ho].
        apply Z.ltb_lt in Hlt.
        rewrite (sm_get_boot_args_mapped p q st Hp Hq Hb). cbn [snd].
        match goal with |- context [run cs ?s] =>
          destruct (IH (c + 1) s) as (SV & C & R & T) end.
        -- exact Hb.
        -- simpl. rewrite Hc. apply int_of_id.
           unfold int_range, INT_MIN, INT_MAX in *. lia.
        -- lia.
        -- exact Ho.
        -- split; [|split; [exact C|split; [exact R|]]].
           ++ eapply same_view_trans; [|exact SV].
              unfold same_view. simpl. rewrite !List.filter_app. simpl.
              rewrite !app_nil_r. repeat split.
           ++ rewrite T. simpl. rewrite !List.filter_app. simpl.
              rewrite !app_nil_r. reflexivity.
    + cbn [run do_call].
      destruct (1 <? c) eqn:Hlt; [|discriminate Ho].
      apply Z.ltb_lt in Hlt.
      assert (Hid : int_of (boot_args_refcnt st - 1) = c - 1).
      { rewrite Hc. apply int_of_id.
        unfold int_range, INT_MIN, INT_MAX in *. lia. }
      rewrite (sm_put_boot_args_keep st Hb) by (rewrite Hid; lia).
      match goal with |- context [run cs ?s] =>
        destruct (IH (c - 1) s) as (SV & C & R & T) end.
      * exact Hb.
      * simpl. exact Hid.
      * lia.
      * exact Ho.
      * split; [|split; [exact C|split; [exact R|]]].
        -- eapply same_view_trans; [|exact SV].
           unfold same_view. simpl. rewrite !List.filter_app. simpl.
           rewrite !app_nil_r. repeat split.
        -- rewrite T. simpl. rewrite !List.filter_app. simpl.
           rewrite !app_nil_r. reflexivity.
Qed.

(** X7: callers that release only what they acquired, in any order, from a
    state with a mapped view and an [int] count of at least 1, never cause
    an unmap or a resume of the dispatch thread: the view pointer stays,
    and the count ends at what [outstanding] computes, at least 1. *)
Theorem paired_use_keeps_view (cs : list sm_call) (c' : Z) (st : sm_state) :
  boot_args st <> NULL ->
  1 <= boot_args_refcnt st <= INT_MAX ->
  outstanding (boot_args_refcnt st) cs = Some c' ->
  boot_args (run cs st) = boot_args st
  /\ boot_args_refcnt (run cs st) = c'
  /\ 1 <= c'
  /\ List.filter is_kunmap (trace (run cs st))
     = List.filter is_kunmap (trace st)
  /\ List.filter is_thread_resume (trace (run cs st))
     = List.filter is_thread_resume (trace st).
Proof.
  intros Hb Hr Ho.
  destruct (run_outstanding cs _ c' st Hb eq_refl Hr Ho)
    as ((B & _ & _ & U) & C & R & T).
  repeat split; try assumption. lia.
Qed.

(** ** The finalize step *)

Lemma sm_release_boot_args_last (st : sm_state) :
  boot_args st <> NULL ->
  boot_args_refcnt st = 1 ->
  sm_release_boot_args st
  = mk_sm_state (ts_handler st) (sm_platform_boot_args st) NULL 0
      (nsthread st) (memory st)
      (trace st
       ++ [E_mutex_acquire;
           E_kunmap (boot_args st) (snd (sm_platform_boot_args st));
           E_thread_resume (nsthread st);
           E_mutex_release]).
Proof.
  intros Hb Hc. unfold sm_release_boot_args.
  apply Z.eqb_neq in Hb as Hb'. rewrite Hb'. cbn [negb].
  rewrite (sm_put_boot_args_last st Hb) by (rewrite Hc; reflexivity).
  unfold log, set_boot_args, set_boot_args_refcnt. simpl.
  rewrite <- ?app_assoc. reflexivity.
Qed.

Lemma sm_release_boot_args_more (st : sm_state) :
  boot_args st <> NULL ->
  1 < boot_args_refcnt st <= INT_MAX ->
  sm_release_boot_args st
  = mk_sm_state (ts_handler st) (sm_platform_boot_args st) (boot_args st)
      (boot_args_refcnt st - 1) (nsthread st) (memory st)
      (trace st
       ++ [E_mutex_acquire; E_mutex_release;
           E_TRACEF
             "WARNING: outstanding reference to boot argsat the end of initialzation!"]).
Proof.
  intros Hb Hc. unfold sm_release_boot_args.
  apply Z.eqb_neq in Hb as Hb'. rewrite Hb'. cbn [negb].
  assert (Hid : int_of (boot_args_refcnt st - 1) = boot_args_refcnt st - 1).
  { apply int_of_id. unfold int_range, INT_MIN, INT_MAX in *. lia. }
  rewrite (sm_put_boot_args_keep st Hb) by (rewrite Hid; lia).
  simpl. rewrite Hb'. unfold log, set_boot_args_refcnt. simpl.
  rewrite Hid, <- ?app_assoc. reflexivity.
Qed.

(** X8: when every acquisition made during boot has been released by the time
    of the finalize step, [sm_release_boot_args] drops the init-time
    reference: it unmaps the view and resumes the dispatch thread, each for
    the only time since boot, and logs no warning. *)
Theorem boot_with_paired_use (pa size va thr : Z) (cs : list sm_call) :
  pa <> 0 -> size <> 0 -> va <> NULL -> thr <> NULL ->
  outstanding 1 cs = Some 1 ->
  exists st1,
    sm_init (NO_ERROR, va) thr (boot_state pa size) = Returned st1
    /\ let st2 := run cs st1 in
       let st3 := sm_release_boot_args st2 in
       boot_args st2 = va
       /\ trace st3
          = trace st2
            ++ [E_mutex_acquire; E_kunmap va size; E_thread_resume thr;
                E_mutex_release]
       /\ boot_args st3 = NULL
       /\ boot_args_refcnt st3 = 0
       /\ List.filter is_kunmap (trace st3) = [E_kunmap va size]
       /\ List.filter is_thread_resume (trace st3) = [E_thread_resume thr].
Proof.
  intros Hpa Hsz Hva Hthr Ho.
  rewrite (sm_init_mapped pa size va thr Hpa Hsz Hthr).
  eexists. split; [reflexivity|].
  set (st1 := mk_sm_state _ _ _ _ _ _ _). cbn zeta.
  destruct (run_outstanding cs 1 1 st1) as ((B & P & N & U) & C & _ & T);
    [exact Hva | reflexivity | unfold INT_MAX; lia | exact Ho |].
  simpl in B, P, N, U, T.
  rewrite (sm_release_boot_args_last (run cs st1))
    by (rewrite ?B; assumption).
  simpl. rewrite B, P, N. simpl.
  repeat split; rewrite List.filter_app; simpl; rewrite ?U, ?T; reflexivity.
Qed.

(** X9: when [c - 1] acquisitions are still outstanding at the finalize step,
    [sm_release_boot_args] drops the init-time reference and logs the
    warning, but neither unmaps the view nor resumes the dispatch thread;
    both happen, once, when the last of those references is released. *)
Theorem boot_with_outstanding_references (pa size va thr c : Z)
  (cs cs2 : list sm_call) :
  pa <> 0 -> size <> 0 -> va <> NULL -> thr <> NULL ->
  outstanding 1 cs = Some c ->
  1 < c ->
  outstanding (c - 1) cs2 = Some 1 ->
  exists st1,
    sm_init (NO_ERROR, va) thr (boot_state pa size) = Returned st1
    /\ let st2 := run cs st1 in
       let st3 := sm_release_boot_args st2 in
       let st4 := sm_put_boot_args (run cs2 st3) in
       trace st3
       = trace st2
         ++ [E_mutex_acquire; E_mutex_release;
             E_TRACEF
               "WARNING: outstanding reference to boot argsat the end of initialzation!"]
       /\ boot_args st3 = va
       /\ boot_args_refcnt st3 = c - 1
       /\ List.filter is_kunmap (trace st3) = []
       /\ List.filter is_thread_resume (trace st3) = []
       /\ boot_args st4 = NULL
       /\ List.filter is_kunmap (trace st4) = [E_kunmap va size]
       /\ List.filter is_thread_resume (trace st4) = [E_thread_resume thr].
Proof.
  intros Hpa Hsz Hva Hthr Ho Hc Ho2.
  rewrite (sm_init_mapped pa size va thr Hpa Hsz Hthr).
  eexists. split; [reflexivity|].
  set (st1 := mk_sm_state _ _ _ _ _ _ _). cbn zeta.
  destruct (run_outstanding cs 1 c st1) as ((B & P & N & U) & C & R & T);
    [exact Hva | reflexivity | unfold INT_MAX; lia | exact Ho |].
  simpl in B, P, N, U, T.
  rewrite (sm_release_boot_args_more (run cs st1))
    by (rewrite ?B, ?C; first [assumption | lia]).
  set (st3 := mk_sm_state _ _ _ _ _ _ _).
  assert (U3 : List.filter is_kunmap (trace st3) = []).
  { unfold st3. simpl. rewrite List.filter_app, U. reflexivity. }
  assert (T3 : List.filter is_thread_resume (trace st3) = []).
  { unfold st3. simpl. rewrite List.filter_app, T. reflexivity. }
  split; [reflexivity|]. split; [exact B|]. split; [simpl; lia|].
  split; [exact U3|]. split; [exact T3|].
  destruct (run_outstanding cs2 (c - 1) 1 st3)
    as ((B4 & P4 & N4 & U4) & C4 & _ & T4);
    [unfold st3; simpl; congruence | unfold st3; simpl; lia | lia
    | exact Ho2 |].
  rewrite sm_put_boot_args_last
    by (rewrite ?B4, ?C4; unfold st3; simpl; first [congruence|reflexivity]).
  simpl. rewrite !List.filter_app, U4, T4, U3, T3, B4, P4, N4. simpl.
  unfold st3. simpl. rewrite B, P, N. repeat split.
Qed.

(** X10: a release made before the finalize step by a caller that acquired
    nothing takes the init-time reference: it unmaps the view and resumes
    the dispatch thread, and [sm_release_boot_args], finding no view,
    resumes the thread a second time. *)
Theorem unpaired_release_resumes_twice (st : sm_state) :
  boot_args st <> NULL ->
  boot_args_refcnt st = 1 ->
  trace (sm_release_boot_args (sm_put_boot_args st))
  = trace st
    ++ [E_mutex_acquire;
        E_kunmap (boot_args st) (snd (sm_platform_boot_args st));
        E_thread_resume (nsthread st);
        E_mutex_release;
        E_thread_resume (nsthread st)]
  /\ boot_args (sm_release_boot_args (sm_put_boot_args st)) = NULL.
Proof.
  intros Hb Hc.
  rewrite (sm_put_boot_args_last st Hb) by (rewrite Hc; reflexivity).
  unfold sm_release_boot_args. simpl. rewrite <- ?app_assoc.
  split; reflexivity.
Qed.

(** ** A mapping that fails *)

Lemma run_unmapped (cs : list sm_call) (st : sm_state) :
  boot_args st = NULL ->
  forallb (fun c => negb (is_sm_init c)) cs = true ->
  boot_args (run cs st) = NULL
  /\ boot_args_refcnt (run cs st) = boot_args_refcnt st
  /\ nsthread (run cs st) = nsthread st
  /\ List.filter is_kunmap (trace (run cs st))
     = List.filter is_kunmap (trace st).
Proof.
  revert st. induction cs as [|c cs IH]; intros st Hb Hf; [auto|].
  cbn [forallb] in Hf. apply andb_true_iff in Hf as [Hc Hf].
  destruct c as [kmap thr|p q|]; [discriminate Hc| |]; cbn [run do_call].
  - unfold sm_get_boot_args.
    destruct ((p =? NULL) || (q =? NULL)); cbn [snd]; [apply IH; assumption|].
    cbn [log boot_args]. rewrite Hb. cbn [Z.eqb NULL snd].
    match goal with |- context [run cs ?s] =>
      destruct (IH s) as (A & B & C & D); [exact Hb|exact Hf|] end.
    rewrite A, B, C, D. simpl. rewrite !List.filter_app. simpl.
    rewrite !app_nil_r. auto.
  - rewrite (sm_put_boot_args_none st Hb).
    match goal with |- context [run cs ?s] =>
      destruct (IH s) as (A & B & C & D); [exact Hb|exact Hf|] end.
    rewrite A, B, C, D. simpl. rewrite !List.filter_app. simpl.
    rewrite !app_nil_r. auto.
Qed.

(** X11: a boot region whose mapping fails is not fatal: [sm_init] logs the
    error, leaves no view and a count of 0, still creates the dispatch
    thread and returns.  From then on every acquisition through valid slots
    returns [ERR_NOT_CONFIGURED], nothing is ever unmapped, and the
    finalize step just resumes the dispatch thread. *)
Theorem sm_init_mapping_failure (pa size thr : Z) (kmap : status_t * Z)
  (cs : list sm_call) :
  pa <> 0 -> size <> 0 -> thr <> NULL ->
  fst kmap <> NO_ERROR ->
  forallb (fun c => negb (is_sm_init c)) cs = true ->
  exists st1,
    sm_init kmap thr (boot_state pa size) = Returned st1
    /\ trace st1
       = [E_mutex_acquire; E_kmap_contig pa size;
          E_TRACEF_d "Error mapping boot parameter block: %d" (fst kmap);
          E_mutex_release; E_thread_create]
    /\ boot_args st1 = NULL
    /\ boot_args_refcnt st1 = 0
    /\ let st2 := run cs st1 in
       (forall p q, p <> NULL -> q <> NULL ->
        fst (sm_get_boot_args p q st2) = ERR_NOT_CONFIGURED)
       /\ List.filter is_kunmap (trace st2) = []
       /\ sm_release_boot_args st2 = log (E_thread_resume thr) st2.
Proof.
  intros Hpa Hsz Hthr Herr Hf. unfold sm_init.
  apply Z.eqb_neq in Hpa as Hpa', Hsz as Hsz', Hthr as Hthr'.
  cbn [log boot_state sm_platform_boot_args fst snd]. rewrite Hpa', Hsz'.
  cbn [negb andb]. destruct kmap as [err va]. cbn [fst snd] in *.
  destruct err; [contradiction Herr; reflexivity| | | |];
    cbn [set_nsthread log set_boot_args nsthread]; rewrite Hthr';
    (eexists; split; [reflexivity|]);
    (split; [reflexivity|]); (split; [reflexivity|]);
    (split; [reflexivity|]); cbn zeta;
    match goal with |- context [run cs ?s] =>
      destruct (run_unmapped cs s) as (A & B & C & D);
      [reflexivity|exact Hf|]; simpl in C, D
    end;
    (split; [|split; [exact D|]]);
    try (intros p q Hp Hq; unfold sm_get_boot_args;
         apply Z.eqb_neq in Hp, Hq; rewrite Hp, Hq; simpl; rewrite A;
         reflexivity);
    unfold sm_release_boot_args; rewrite A; simpl; rewrite A, C;
    reflexivity.
Qed.

(** ** The output slots *)

(** X12: a successful [sm_get_boot_args] writes the two slots and no other
    word: afterwards the size slot holds the platform's size, the view slot
    holds the view pointer unless both pointers name the same word, and
    every other address reads as before.  A failed call writes nothing. *)
Theorem sm_get_boot_args_slots (p q : Z) (st : sm_state) :
  let r := sm_get_boot_args p q st in
  (fst r <> NO_ERROR -> memory (snd r) = memory st)
  /\ (fst r = NO_ERROR ->
      memory (snd r) !! q = Some (snd (sm_platform_boot_args st))
      /\ (p <> q -> memory (snd r) !! p = Some (boot_args st))
      /\ (forall a, a <> p -> a <> q -> memory (snd r) !! a = memory st !! a)).
Proof.
  cbn zeta. unfold sm_get_boot_args.
  destruct ((p =? NULL) || (q =? NULL)); [split; [reflexivity|discriminate]|].
  cbn [log boot_args]. destruct (boot_args st =? NULL);
    [split; [reflexivity|discriminate]|].
  split; [intros H; contradiction H; reflexivity|]. intros _. simpl.
  split; [apply lookup_insert_eq|]. split.
  - intros Hpq. rewrite lookup_insert_ne by congruence.
    apply lookup_insert_eq.
  - intros a Hp Hq. rewrite !lookup_insert_ne by congruence. reflexivity.
Qed.

(** ** Per-CPU bring-up *)

Lemma NSACR_mask_bits (i : Z) :
  0 <= i ->
  Z.testbit (Z.lor 3072 393216) i
  = (i =? 10) || (i =? 11) || (i =? 17) || (i =? 18).
Proof.
  intros Hi. destruct (Z_lt_dec i 19) as [Hlt|Hge].
  - assert (H : i = 0 \/ i = 1 \/ i = 2 \/ i = 3 \/ i = 4 \/ i = 5 \/ i = 6
                \/ i = 7 \/ i = 8 \/ i = 9 \/ i = 10 \/ i = 11 \/ i = 12
                \/ i = 13 \/ i = 14 \/ i = 15 \/ i = 16 \/ i = 17 \/ i = 18)
      by lia.
    repeat (destruct H as [->|H]; [reflexivity|]). subst i. reflexivity.
  - change (Z.lor 3072 393216) with 396288.
    rewrite Z.bits_above_log2;
      [|lia|change (Z.log2 396288) with 18; lia].
    symmetry. repeat (apply orb_false_iff; split); apply Z.eqb_neq; lia.
Qed.

(** X13: [sm_secondary_init] sets exactly the bits 10, 11, 17 and 18 of the
    Non-Secure Access Control Register (CP10 and CP11 access, TLB lockdown,
    SMP) and leaves every other bit as it found it, whether or not the
    monitor stack could be allocated; running it again changes nothing in
    the register.  The vector base register receives the address of the
    monitor vector table. *)
Theorem sm_secondary_init_registers (mon_stack vectors : Z)
  (cpu : cpu_state) :
  (forall i, 0 <= i ->
   Z.testbit (NSACR (sm_secondary_init mon_stack vectors cpu)) i
   = Z.testbit (NSACR cpu) i
     || ((i =? 10) || (i =? 11) || (i =? 17) || (i =? 18)))
  /\ NSACR (sm_secondary_init mon_stack vectors
              (sm_secondary_init mon_stack vectors cpu))
     = NSACR (sm_secondary_init mon_stack vectors cpu)
  /\ NSACR (sm_secondary_init mon_stack vectors cpu)
     = NSACR (sm_secondary_init NULL vectors cpu)
  /\ MVBAR (sm_secondary_init mon_stack vectors cpu) = vectors.
Proof.
  assert (E : forall m c, NSACR (sm_secondary_init m vectors c)
                          = Z.lor (NSACR c) (Z.lor 3072 393216)).
  { intros m c. unfold sm_secondary_init.
    destruct (m =? NULL); simpl; rewrite <- Z.lor_assoc; reflexivity. }
  split; [|split; [|split]].
  - intros i Hi. rewrite E, Z.lor_spec, NSACR_mask_bits by exact Hi.
    reflexivity.
  - rewrite !E, <- Z.lor_assoc, Z.lor_diag. reflexivity.
  - rewrite !E. reflexivity.
  - reflexivity.
Qed.

(** X14: when [heap_alloc] fails, [sm_secondary_init] logs it and goes on
    without ever calling [sm_set_mon_stack].  When it returns a block, the
    function passes the address just past the 4096 bytes of the block, the
    top of the stack, which is 8-byte aligned as the block is. *)
Theorem sm_secondary_init_stack (mon_stack vectors : Z) (cpu : cpu_state) :
  (mon_stack = NULL ->
   cpu_trace (sm_secondary_init mon_stack vectors cpu)
   = cpu_trace cpu
     ++ [C_heap_alloc 4096 8;
         C_dprintf "failed to allocate monitor mode stack!"])
  /\ (0 < mon_stack -> mon_stack + 4096 < 4294967296 ->
      mon_stack mod 8 = 0 ->
      cpu_trace (sm_secondary_init mon_stack vectors cpu)
      = cpu_trace cpu
        ++ [C_heap_alloc 4096 8; C_sm_set_mon_stack (mon_stack + 4096)]
      /\ (mon_stack + 4096) mod 8 = 0).
Proof.
  split.
  - intros ->. unfold sm_secondary_init. simpl. rewrite <- app_assoc.
    reflexivity.
  - intros Hpos Htop Hal. unfold sm_secondary_init.
    assert (Hn : (mon_stack =? NULL) = false)
      by (apply Z.eqb_neq; unfold NULL; lia).
    rewrite Hn. simpl. rewrite <- app_assoc. unfold ptr_of.
    rewrite Z.mod_small by lia. split; [reflexivity|].
    replace (mon_stack + 4096) with (mon_stack + 512 * 8) by lia.
    rewrite Z_mod_plus_full. exact Hal.
Qed.

End sm.

(** * Concrete runs

    The platform passes the region at 4096 of size 4096, [kmap_contig] maps
    it at 3221225472, the dispatch thread is at address 1, callers pass the
    output slots 100 and 104, and a request is a number. *)

(** C10 at boot: a null handler, then the handler at 4096. *)
Lemma register_null_succeeds_twice_witness :
  ts_handler (boot_state (ts_args_t := Z) 4096 4096) = NULL
  /\ 4096 <> NULL
  /\ fst (sm_register_trusted_service_handler NULL
            (boot_state (ts_args_t := Z) 4096 4096)) = NO_ERROR
  /\ fst (register_all [NULL; 4096] (boot_state (ts_args_t := Z) 4096 4096))
     = [NO_ERROR; NO_ERROR].
Proof.
  assert (H1 : ts_handler (boot_state (ts_args_t := Z) 4096 4096) = NULL)
    by reflexivity.
  assert (H2 : 4096 <> NULL) by (unfold NULL; lia).
  pose proof (register_null_succeeds_twice 4096
                (boot_state (ts_args_t := Z) 4096 4096) H1 H2) as H.
  cbv zeta in H. destruct H as (A & _ & _ & _ & B).
  exact (conj H1 (conj H2 (conj A B))).
Defined.

(** C1 as stated fails: at boot the call with a null handler succeeds, and
    so does the second call of the sequence, which does not return
    [ERR_ALREADY_EXISTS]. *)
Lemma register_second_call_succeeds :
  fst (register_all [NULL; 4096] (boot_state (ts_args_t := Z) 4096 4096))
  = [NO_ERROR; NO_ERROR]
  /\ fst (register_all [NULL; 4096] (boot_state (ts_args_t := Z) 4096 4096))
     <> [NO_ERROR; ERR_ALREADY_EXISTS]
  /\ ts_handler
       (snd (register_all [NULL; 4096]
               (boot_state (ts_args_t := Z) 4096 4096))) = 4096.
Proof.
  split; [reflexivity|]. split; [|reflexivity].
  simpl. intros H. discriminate H.
Qed.

(** C1, amended, at boot: one null handler, the handler at 4096, then two
    more attempts; the loop is given a request, a null answer and a
    request. *)
Lemma register_first_handler_wins_witness :
  ts_handler (boot_state (ts_args_t := Z) 4096 4096) = NULL
  /\ 4096 <> NULL
  /\ exists st1,
       register_all (replicate 1 NULL ++ [4096])
         (boot_state (ts_args_t := Z) 4096 4096)
       = (replicate 2 NO_ERROR, st1)
       /\ ts_handler st1 = 4096
       /\ register_all (replicate 1 NULL ++ 4096 :: [8192; NULL])
            (boot_state (ts_args_t := Z) 4096 4096)
          = (replicate 2 NO_ERROR ++ replicate 2 ERR_ALREADY_EXISTS, st1)
       /\ handler_calls
            (trace (sm_wait_for_smcall (fun _ a => a + 1) (-4) (-8)
                      [Some 7; None; Some 9] st1))
          = handler_calls (trace (boot_state (ts_args_t := Z) 4096 4096))
            ++ map (fun a => (4096, a)) (requests [Some 7; None; Some 9]).
Proof.
  assert (H1 : ts_handler (boot_state (ts_args_t := Z) 4096 4096) = NULL)
    by reflexivity.
  assert (H2 : 4096 <> NULL) by (unfold NULL; lia).
  exact (conj H1 (conj H2
           (register_first_handler_wins (fun _ a => a + 1) (-4) (-8)
              1%nat 4096 [8192; NULL]
              (boot_state (ts_args_t := Z) 4096 4096)
              [Some 7; None; Some 9] H1 H2))).
Defined.

(** C7 at boot: a null answer, then the request 7. *)
Lemma sm_wait_for_smcall_restart_then_unsupported_witness :
  ts_handler (boot_state (ts_args_t := Z) 4096 4096) = NULL
  /\ exists tl : list (@event Z),
       switch_args
         (trace (sm_wait_for_smcall (fun _ a => a + 1) (-4) (-8)
                   [None; Some 7] (boot_state (ts_args_t := Z) 4096 4096)))
       = [0; -4; -8] ++ switch_args tl.
Proof.
  assert (H1 : ts_handler (boot_state (ts_args_t := Z) 4096 4096) = NULL)
    by reflexivity.
  split; [exact H1|].
  destruct (sm_wait_for_smcall_restart_then_unsupported
              (fun _ a => a + 1) (-4) (-8) 7 []
              (boot_state (ts_args_t := Z) 4096 4096) H1)
    as (tl & _ & E & _).
  exists tl. exact E.
Defined.

(** C9 as stated fails: after the null answer to the first switch the loop
    calls [exit_critical_section], which brings the nesting depth back to
    zero, before the second iteration enters the critical section again. *)
Lemma sm_wait_for_smcall_null_exits_critical_section :
  trace (sm_wait_for_smcall (fun _ a => a + 1) (-4) (-8) [None]
           (boot_state (ts_args_t := Z) 4096 4096))
  = [E_enter_critical_section; E_thread_yield; E_sm_sched_nonsecure 0;
     E_exit_critical_section;
     E_enter_critical_section; E_thread_yield; E_sm_sched_nonsecure (-4)]
  /\ cs_depth 0
       (take 4 (trace (sm_wait_for_smcall (fun _ a => a + 1) (-4) (-8) [None]
                         (boot_state (ts_args_t := Z) 4096 4096)))) = 0.
Proof. split; reflexivity. Qed.

(** C5 at boot, where no view is mapped. *)
Lemma sm_put_boot_args_without_view_witness :
  boot_args (boot_state (ts_args_t := Z) 4096 4096) = NULL
  /\ boot_args_refcnt
       (sm_put_boot_args (boot_state (ts_args_t := Z) 4096 4096)) = 0
  /\ trace (sm_put_boot_args (boot_state (ts_args_t := Z) 4096 4096))
     = [E_mutex_acquire;
        E_TRACEF "WARNING: caller does not own a reference to boot parameters";
        E_mutex_release].
Proof.
  assert (H1 : boot_args (boot_state (ts_args_t := Z) 4096 4096) = NULL)
    by reflexivity.
  destruct (sm_put_boot_args_without_view
              (boot_state (ts_args_t := Z) 4096 4096) H1)
    as (_ & A & _ & B & _).
  exact (conj H1 (conj A B)).
Defined.

(** C4 as stated fails: [sm_init] maps the view and 2147483646
    acquisitions bring the count to [INT_MAX]; the next acquisition returns
    [NO_ERROR] and leaves the count at [INT_MIN], not one higher. *)
Lemma sm_get_boot_args_wraps_at_INT_MAX :
  boot_args_refcnt
    (snd (get_all (replicate (Z.to_nat 2147483646) (100, 104))
            (state_of (sm_init (NO_ERROR, 3221225472) 1
                         (boot_state (ts_args_t := Z) 4096 4096)))))
  = 2147483647
  /\ fst (sm_get_boot_args 100 104
            (snd (get_all (replicate (Z.to_nat 2147483646) (100, 104))
                    (state_of (sm_init (NO_ERROR, 3221225472) 1
                                 (boot_state (ts_args_t := Z) 4096 4096))))))
     = NO_ERROR
  /\ boot_args_refcnt
       (snd (sm_get_boot_args 100 104
               (snd (get_all (replicate (Z.to_nat 2147483646) (100, 104))
                       (state_of (sm_init (NO_ERROR, 3221225472) 1
                                    (boot_state (ts_args_t := Z) 4096 4096)))))))
     = -2147483648.
Proof.
  remember (Z.to_nat 2147483646) as n eqn:Hn.
  assert (En : Z.of_nat n = 2147483646) by (subst n; apply Z2Nat.id; lia).
  set (st1 := state_of (sm_init (NO_ERROR, 3221225472) 1
                          (boot_state (ts_args_t := Z) 4096 4096))).
  destruct (get_all_replicate_refcnt n 100 104 st1) as (_ & B & C);
    try (unfold NULL; simpl; lia); try reflexivity.
  rewrite En in C. change (boot_args st1) with 3221225472 in B.
  assert (Hb : boot_args (snd (get_all (replicate n (100, 104)) st1)) <> NULL)
    by (rewrite B; unfold NULL; lia).
  split; [rewrite C; reflexivity|].
  rewrite sm_get_boot_args_mapped by (try exact Hb; unfold NULL; lia).
  split; [reflexivity|]. cbn [snd log store set_boot_args_refcnt boot_args_refcnt].
  rewrite C. reflexivity.
Qed.

(** C4, amended, in the state [sm_init] leaves after mapping the view. *)
Lemma sm_get_boot_args_contract_witness :
  100 <> NULL /\ 104 <> NULL
  /\ boot_args (state_of (sm_init (NO_ERROR, 3221225472) 1
                            (boot_state (ts_args_t := Z) 4096 4096))) <> NULL
  /\ INT_MIN
     <= boot_args_refcnt
          (state_of (sm_init (NO_ERROR, 3221225472) 1
                       (boot_state (ts_args_t := Z) 4096 4096)))
     < INT_MAX
  /\ fst (sm_get_boot_args 100 104
            (state_of (sm_init (NO_ERROR, 3221225472) 1
                         (boot_state (ts_args_t := Z) 4096 4096)))) = NO_ERROR
  /\ boot_args_refcnt
       (snd (sm_get_boot_args 100 104
               (state_of (sm_init (NO_ERROR, 3221225472) 1
                            (boot_state (ts_args_t := Z) 4096 4096))))) = 2
  /\ memory
       (snd (sm_get_boot_args 100 104
               (state_of (sm_init (NO_ERROR, 3221225472) 1
                            (boot_state (ts_args_t := Z) 4096 4096)))))
     = <[104 := 4096]> (<[100 := 3221225472]> ∅).
Proof.
  assert (Hp : 100 <> NULL) by (unfold NULL; lia).
  assert (Hq : 104 <> NULL) by (unfold NULL; lia).
  set (st1 := state_of (sm_init (NO_ERROR, 3221225472) 1
                          (boot_state (ts_args_t := Z) 4096 4096))).
  assert (Hb : boot_args st1 <> NULL) by (unfold NULL; simpl; lia).
  assert (Hr : INT_MIN <= boot_args_refcnt st1 < INT_MAX)
    by (change (boot_args_refcnt st1) with 1; unfold INT_MIN, INT_MAX; lia).
  destruct (sm_get_boot_args_contract 100 104 st1) as (_ & _ & H).
  destruct (H Hp Hq Hb) as (A & M & _ & _ & _ & _ & C).
  exact (conj Hp (conj Hq (conj Hb (conj Hr (conj A (conj (C Hr) M)))))).
Defined.

(** C6 for a region of size zero: [sm_init], an acquisition and a release,
    then the finalize step. *)
Lemma sm_init_without_region_witness :
  ((4096 = 0 \/ 0 = 0) /\ 1 <> NULL)
  /\ exists st1,
       sm_init (NO_ERROR, 0) 1 (boot_state (ts_args_t := Z) 4096 0)
       = Returned st1
       /\ fst (sm_get_boot_args 100 104
                 (run [call_sm_get_boot_args 100 104; call_sm_put_boot_args]
                    st1)) = ERR_NOT_CONFIGURED
       /\ sm_release_boot_args
            (run [call_sm_get_boot_args 100 104; call_sm_put_boot_args] st1)
          = log (E_thread_resume 1)
              (run [call_sm_get_boot_args 100 104; call_sm_put_boot_args] st1).
Proof.
  assert (Hz : 4096 = 0 \/ 0 = 0) by (right; reflexivity).
  assert (Ht : 1 <> NULL) by (unfold NULL; lia).
  split; [exact (conj Hz Ht)|].
  destruct (sm_init_without_region (ts_args_t := Z) 4096 0 (NO_ERROR, 0) 1
              [call_sm_get_boot_args 100 104; call_sm_put_boot_args] Hz Ht)
    as (st1 & E & _ & _ & _ & H).
  cbv zeta in H. destruct H as (_ & _ & _ & G & R & N).
  exists st1. split; [exact E|]. split.
  - apply G; unfold NULL; lia.
  - rewrite R, N by reflexivity. reflexivity.
Defined.

(** C2 as stated fails.  First, after [sm_init] has mapped the view,
    2147483647 acquisitions leave a mapped view with the count at
    [INT_MIN].  Second, a further [sm_init] whose mapping fails clears the
    view pointer and leaves the count at 1. *)
Lemma refcount_invariant_broken :
  ~ view_iff_counted
      (run (call_sm_init (NO_ERROR, 3221225472) 1
              :: replicate (Z.to_nat 2147483647)
                   (call_sm_get_boot_args 100 104))
         (boot_state (ts_args_t := Z) 4096 4096))
  /\ ~ view_iff_counted
         (run [call_sm_init (NO_ERROR, 3221225472) 1;
               call_sm_init (ERR_other (-5), 0) 1]
            (boot_state (ts_args_t := Z) 4096 4096)).
Proof.
  split.
  - destruct (run_init_gets (ts_args_t := Z) (Z.to_nat 2147483647)
                4096 4096 3221225472 1 100 104) as [B C];
      try (unfold NULL; lia).
    rewrite Z2Nat.id in C by lia.
    unfold view_iff_counted. rewrite B, C. unfold NULL.
    change (int_of (1 + 2147483647)) with (-2147483648). lia.
  - unfold view_iff_counted, NULL.
    change (boot_args _) with 0. change (boot_args_refcnt _) with 1. lia.
Qed.

(** C2, amended: [sm_init] at boot, and the run of [sm_init], an
    acquisition and two releases. *)
Lemma refcount_invariant_witness :
  (counted (boot_state (ts_args_t := Z) 4096 4096)
   /\ admissible (call_sm_init (NO_ERROR, 3221225472) 1)
        (boot_state (ts_args_t := Z) 4096 4096) = true
   /\ counted
        (state_of (do_call (call_sm_init (NO_ERROR, 3221225472) 1)
                     (boot_state (ts_args_t := Z) 4096 4096))))
  /\ (admissible_run
        ([call_sm_init (NO_ERROR, 3221225472) 1;
          call_sm_get_boot_args 100 104]
         ++ [call_sm_put_boot_args; call_sm_put_boot_args])
        (boot_state (ts_args_t := Z) 4096 4096) = true
      /\ view_iff_counted
           (run [call_sm_init (NO_ERROR, 3221225472) 1;
                 call_sm_get_boot_args 100 104]
              (boot_state (ts_args_t := Z) 4096 4096))).
Proof.
  assert (H0 : counted (boot_state (ts_args_t := Z) 4096 4096)).
  { unfold counted, view_iff_counted, INT_MAX. simpl. unfold NULL. lia. }
  assert (H1 : admissible (call_sm_init (NO_ERROR, 3221225472) 1)
                 (boot_state (ts_args_t := Z) 4096 4096) = true)
    by reflexivity.
  assert (H2 : admissible_run
                 ([call_sm_init (NO_ERROR, 3221225472) 1;
                   call_sm_get_boot_args 100 104]
                  ++ [call_sm_put_boot_args; call_sm_put_boot_args])
                 (boot_state (ts_args_t := Z) 4096 4096) = true)
    by (vm_compute; reflexivity).
  destruct (refcount_invariant (call_sm_init (NO_ERROR, 3221225472) 1)
              (boot_state (ts_args_t := Z) 4096 4096) 4096 4096
              [call_sm_init (NO_ERROR, 3221225472) 1;
               call_sm_get_boot_args 100 104]
              [call_sm_put_boot_args; call_sm_put_boot_args])
    as [A B].
  exact (conj (conj H0 (conj H1 (A H0 H1))) (conj H2 (proj1 (B H2)))).
Defined.

(** C3 as stated fails for [n] = 2^32: all the acquisitions succeed and
    bring the count back to 1, so that the first release already unmaps
    the view. *)
Lemma view_unmapped_by_first_release :
  fst (get_all (replicate (Z.to_nat 4294967296) (100, 104))
         (state_of (sm_init (NO_ERROR, 3221225472) 1
                      (boot_state (ts_args_t := Z) 4096 4096))))
  = replicate (Z.to_nat 4294967296) NO_ERROR
  /\ boot_args
       (put_all 1
          (snd (get_all (replicate (Z.to_nat 4294967296) (100, 104))
                  (state_of (sm_init (NO_ERROR, 3221225472) 1
                               (boot_state (ts_args_t := Z) 4096 4096))))))
     = NULL.
Proof.
  remember (Z.to_nat 4294967296) as n eqn:Hn.
  assert (En : Z.of_nat n = 4294967296) by (subst n; apply Z2Nat.id; lia).
  set (st1 := state_of (sm_init (NO_ERROR, 3221225472) 1
                          (boot_state (ts_args_t := Z) 4096 4096))).
  destruct (get_all_replicate_refcnt n 100 104 st1) as (E & B & C);
    try (unfold NULL; simpl; lia); try reflexivity.
  rewrite En in C. change (boot_args st1) with 3221225472 in B.
  split; [exact E|]. cbn [put_all].
  rewrite sm_put_boot_args_last.
  - reflexivity.
  - rewrite B. unfold NULL. lia.
  - rewrite C. reflexivity.
Qed.

(** C3, amended: two acquisitions, then three releases. *)
Lemma view_unmapped_by_last_release_witness :
  (4096 <> 0 /\ 4096 <> 0 /\ 3221225472 <> NULL /\ 1 <> NULL
   /\ Forall valid_slots [(100, 104); (200, 204)]
   /\ Z.of_nat (length [(100, 104); (200, 204)]) < 4294967296)
  /\ exists st1,
       sm_init (NO_ERROR, 3221225472) 1
         (boot_state (ts_args_t := Z) 4096 4096) = Returned st1
       /\ boot_args
            (put_all 2 (snd (get_all [(100, 104); (200, 204)] st1)))
          = 3221225472
       /\ boot_args
            (put_all 3 (snd (get_all [(100, 104); (200, 204)] st1)))
          = NULL
       /\ List.filter is_kunmap
            (trace (put_all 3 (snd (get_all [(100, 104); (200, 204)] st1))))
          = [E_kunmap 3221225472 4096].
Proof.
  assert (H1 : 4096 <> 0) by lia.
  assert (H2 : 3221225472 <> NULL) by (unfold NULL; lia).
  assert (H3 : 1 <> NULL) by (unfold NULL; lia).
  assert (H4 : Forall valid_slots [(100, 104); (200, 204)]).
  { repeat constructor; unfold NULL; simpl; lia. }
  assert (H5 : Z.of_nat (length [(100, 104); (200, 204)]) < 4294967296)
    by (simpl; lia).
  split; [exact (conj H1 (conj H1 (conj H2 (conj H3 (conj H4 H5)))))|].
  destruct (view_unmapped_by_last_release (ts_args_t := Z)
              4096 4096 3221225472 1 [(100, 104); (200, 204)] 2
              H1 H1 H2 H3 H4 H5) as (st1 & E & _ & _ & _ & K & _).
  destruct (view_unmapped_by_last_release (ts_args_t := Z)
              4096 4096 3221225472 1 [(100, 104); (200, 204)] 3
              H1 H1 H2 H3 H4 H5) as (st1' & E' & _ & _ & _ & _ & L).
  assert (Heq : st1' = st1) by congruence. subst st1'.
  exists st1. split; [exact E|].
  split; [exact (proj1 (K ltac:(simpl; lia)))|].
  split; [exact (proj1 (L ltac:(simpl; lia)))
         |exact (proj2 (L ltac:(simpl; lia)))].
Defined.

(** * Further concrete runs *)

(** The dispatch loop after the handler at 4096 has been registered: a
    request, then a null answer. *)
Lemma sm_wait_for_smcall_critical_sections_witness :
  (dispatch_discipline 0
     (trace (snd (sm_register_trusted_service_handler 4096
                    (boot_state (ts_args_t := Z) 4096 4096)))) = true
   /\ cs_depth 0
        (trace (snd (sm_register_trusted_service_handler 4096
                       (boot_state (ts_args_t := Z) 4096 4096)))) = 0)
  /\ dispatch_discipline 0
       (trace (sm_wait_for_smcall (fun _ a => a + 1) (-4) (-8)
                 [Some 7; None]
                 (snd (sm_register_trusted_service_handler 4096
                         (boot_state (ts_args_t := Z) 4096 4096))))) = true
  /\ cs_depth 0
       (trace (sm_wait_for_smcall (fun _ a => a + 1) (-4) (-8)
                 [Some 7; None]
                 (snd (sm_register_trusted_service_handler 4096
                         (boot_state (ts_args_t := Z) 4096 4096))))) = 1.
Proof.
  assert (H1 : dispatch_discipline 0
                 (trace (snd (sm_register_trusted_service_handler 4096
                                (boot_state (ts_args_t := Z) 4096 4096))))
               = true) by reflexivity.
  assert (H2 : cs_depth 0
                 (trace (snd (sm_register_trusted_service_handler 4096
                                (boot_state (ts_args_t := Z) 4096 4096))))
               = 0) by reflexivity.
  exact (conj (conj H1 H2)
           (sm_wait_for_smcall_critical_sections (fun _ a => a + 1) (-4) (-8)
              [Some 7; None] _ H1 H2)).
Defined.

(** The IRQ routine when the primitive answers with two requests and then
    no more. *)
Lemma sm_handle_irq_returns_iff_null_witness :
  ~ In None [Some 7; Some 9]
  /\ fst (sm_handle_irq (-3) (-6) [Some 7; Some 9]
            (boot_state (ts_args_t := Z) 4096 4096)) = None
  /\ trace (snd (sm_handle_irq (-3) (-6) [Some 7; Some 9]
                   (boot_state (ts_args_t := Z) 4096 4096)))
     = [E_sm_sched_nonsecure (-3); E_sm_sched_nonsecure (-6);
        E_sm_sched_nonsecure (-6)].
Proof.
  assert (H : ~ In None [Some 7; Some 9]).
  { simpl. intros [H|[H|H]]; [discriminate H|discriminate H|exact H]. }
  destruct (sm_handle_irq_returns_iff_null (-3) (-6) [Some 7; Some 9]
              (boot_state (ts_args_t := Z) 4096 4096)) as (_ & _ & K).
  exact (conj H (K H)).
Defined.

(** The lock after [sm_init] has mapped the view, across a release and
    across the finalize step. *)
Lemma boot_args_lock_released_witness :
  lock_discipline false
    (trace (state_of (sm_init (NO_ERROR, 3221225472) 1
                        (boot_state (ts_args_t := Z) 4096 4096))))
  = Some false
  /\ lock_discipline false
       (trace (state_of
                 (do_call call_sm_put_boot_args
                    (state_of (sm_init (NO_ERROR, 3221225472) 1
                                 (boot_state (ts_args_t := Z) 4096 4096))))))
     = Some false
  /\ lock_discipline false
       (trace (sm_release_boot_args
                 (state_of (sm_init (NO_ERROR, 3221225472) 1
                              (boot_state (ts_args_t := Z) 4096 4096)))))
     = Some false.
Proof.
  assert (H : lock_discipline false
                (trace (state_of (sm_init (NO_ERROR, 3221225472) 1
                                    (boot_state (ts_args_t := Z) 4096 4096))))
              = Some false) by reflexivity.
  exact (conj H (boot_args_lock_released call_sm_put_boot_args _ H)).
Defined.

(** Three acquisitions and three releases, interleaved, after [sm_init]
    has mapped the view. *)
Lemma paired_use_keeps_view_witness :
  (boot_args (state_of (sm_init (NO_ERROR, 3221225472) 1
                          (boot_state (ts_args_t := Z) 4096 4096))) <> NULL
   /\ 1 <= boot_args_refcnt
             (state_of (sm_init (NO_ERROR, 3221225472) 1
                          (boot_state (ts_args_t := Z) 4096 4096)))
        <= INT_MAX
   /\ outstanding
        (boot_args_refcnt
           (state_of (sm_init (NO_ERROR, 3221225472) 1
                        (boot_state (ts_args_t := Z) 4096 4096))))
        [call_sm_get_boot_args 100 104; call_sm_get_boot_args 200 204;
         call_sm_put_boot_args; call_sm_get_boot_args 300 304;
         call_sm_put_boot_args; call_sm_put_boot_args] = Some 1)
  /\ boot_args
       (run [call_sm_get_boot_args 100 104; call_sm_get_boot_args 200 204;
             call_sm_put_boot_args; call_sm_get_boot_args 300 304;
             call_sm_put_boot_args; call_sm_put_boot_args]
          (state_of (sm_init (NO_ERROR, 3221225472) 1
                       (boot_state (ts_args_t := Z) 4096 4096))))
     = 3221225472
  /\ boot_args_refcnt
       (run [call_sm_get_boot_args 100 104; call_sm_get_boot_args 200 204;
             call_sm_put_boot_args; call_sm_get_boot_args 300 304;
             call_sm_put_boot_args; call_sm_put_boot_args]
          (state_of (sm_init (NO_ERROR, 3221225472) 1
                       (boot_state (ts_args_t := Z) 4096 4096))))
     = 1.
Proof.
  set (st1 := state_of (sm_init (NO_ERROR, 3221225472) 1
                          (boot_state (ts_args_t := Z) 4096 4096))).
  assert (H1 : boot_args st1 <> NULL) by (unfold NULL; simpl; lia).
  assert (H2 : 1 <= boot_args_refcnt st1 <= INT_MAX)
    by (change (boot_args_refcnt st1) with 1; unfold INT_MAX; lia).
  assert (H3 : outstanding (boot_args_refcnt st1)
                 [call_sm_get_boot_args 100 104; call_sm_get_boot_args 200 204;
                  call_sm_put_boot_args; call_sm_get_boot_args 300 304;
                  call_sm_put_boot_args; call_sm_put_boot_args] = Some 1)
    by reflexivity.
  destruct (paired_use_keeps_view _ 1 st1 H1 H2 H3) as (A & B & _).
  exact (conj (conj H1 (conj H2 H3)) (conj A B)).
Defined.

(** Boot with two acquisitions, both released before the finalize step. *)
Lemma boot_with_paired_use_witness :
  (4096 <> 0 /\ 3221225472 <> NULL /\ 1 <> NULL
   /\ outstanding 1
        [call_sm_get_boot_args 100 104; call_sm_put_boot_args;
         call_sm_get_boot_args 200 204; call_sm_put_boot_args] = Some 1)
  /\ exists st1,
       sm_init (NO_ERROR, 3221225472) 1
         (boot_state (ts_args_t := Z) 4096 4096) = Returned st1
       /\ List.filter is_thread_resume
            (trace (sm_release_boot_args
                      (run [call_sm_get_boot_args 100 104;
                            call_sm_put_boot_args;
                            call_sm_get_boot_args 200 204;
                            call_sm_put_boot_args] st1)))
          = [E_thread_resume 1].
Proof.
  assert (H1 : 4096 <> 0) by lia.
  assert (H2 : 3221225472 <> NULL) by (unfold NULL; lia).
  assert (H3 : 1 <> NULL) by (unfold NULL; lia).
  assert (H4 : outstanding 1
                 [call_sm_get_boot_args 100 104; call_sm_put_boot_args;
                  call_sm_get_boot_args 200 204; call_sm_put_boot_args]
               = Some 1) by reflexivity.
  split; [exact (conj H1 (conj H2 (conj H3 H4)))|].
  destruct (boot_with_paired_use (ts_args_t := Z) 4096 4096 3221225472 1 _
              H1 H1 H2 H3 H4) as (st1 & E & K).
  cbv zeta in K. destruct K as (_ & _ & _ & _ & _ & T).
  exists st1. exact (conj E T).
Defined.

(** Boot with one acquisition still outstanding at the finalize step,
    released afterwards. *)
Lemma boot_with_outstanding_references_witness :
  (4096 <> 0 /\ 3221225472 <> NULL /\ 1 <> NULL
   /\ outstanding 1
        [call_sm_get_boot_args 100 104; call_sm_get_boot_args 200 204;
         call_sm_put_boot_args] = Some 2
   /\ 1 < 2
   /\ outstanding (2 - 1)
        [call_sm_get_boot_args 300 304; call_sm_put_boot_args] = Some 1)
  /\ exists st1,
       sm_init (NO_ERROR, 3221225472) 1
         (boot_state (ts_args_t := Z) 4096 4096) = Returned st1
       /\ List.filter is_thread_resume
            (trace (sm_release_boot_args
                      (run [call_sm_get_boot_args 100 104;
                            call_sm_get_boot_args 200 204;
                            call_sm_put_boot_args] st1))) = []
       /\ List.filter is_thread_resume
            (trace (sm_put_boot_args
                      (run [call_sm_get_boot_args 300 304;
                            call_sm_put_boot_args]
                         (sm_release_boot_args
                            (run [call_sm_get_boot_args 100 104;
                                  call_sm_get_boot_args 200 204;
                                  call_sm_put_boot_args] st1)))))
          = [E_thread_resume 1].
Proof.
  assert (H1 : 4096 <> 0) by lia.
  assert (H2 : 3221225472 <> NULL) by (unfold NULL; lia).
  assert (H3 : 1 <> NULL) by (unfold NULL; lia).
  assert (H4 : outstanding 1
                 [call_sm_get_boot_args 100 104; call_sm_get_boot_args 200 204;
                  call_sm_put_boot_args] = Some 2) by reflexivity.
  assert (H5 : 1 < 2) by lia.
  assert (H6 : outstanding (2 - 1)
                 [call_sm_get_boot_args 300 304; call_sm_put_boot_args]
               = Some 1) by reflexivity.
  split; [exact (conj H1 (conj H2 (conj H3 (conj H4 (conj H5 H6)))))|].
  destruct (boot_with_outstanding_references (ts_args_t := Z)
              4096 4096 3221225472 1 2 _ _ H1 H1 H2 H3 H4 H5 H6)
    as (st1 & E & K).
  cbv zeta in K. destruct K as (_ & _ & _ & _ & T3 & _ & _ & T4).
  exists st1. exact (conj E (conj T3 T4)).
Defined.

(** A release nobody paired with an acquisition, right after [sm_init]. *)
Lemma unpaired_release_resumes_twice_witness :
  (boot_args (state_of (sm_init (NO_ERROR, 3221225472) 1
                          (boot_state (ts_args_t := Z) 4096 4096))) <> NULL
   /\ boot_args_refcnt
        (state_of (sm_init (NO_ERROR, 3221225472) 1
                     (boot_state (ts_args_t := Z) 4096 4096))) = 1)
  /\ List.filter is_thread_resume
       (trace (sm_release_boot_args
                 (sm_put_boot_args
                    (state_of (sm_init (NO_ERROR, 3221225472) 1
                                 (boot_state (ts_args_t := Z) 4096 4096))))))
     = [E_thread_resume 1; E_thread_resume 1].
Proof.
  set (st1 := state_of (sm_init (NO_ERROR, 3221225472) 1
                          (boot_state (ts_args_t := Z) 4096 4096))).
  assert (H1 : boot_args st1 <> NULL) by (unfold NULL; simpl; lia).
  assert (H2 : boot_args_refcnt st1 = 1) by reflexivity.
  destruct (unpaired_release_resumes_twice st1 H1 H2) as [T _].
  split; [exact (conj H1 H2)|]. rewrite T. reflexivity.
Defined.

(** A mapping that fails for lack of memory, then an acquisition and a
    release. *)
Lemma sm_init_mapping_failure_witness :
  (4096 <> 0 /\ 1 <> NULL /\ fst (ERR_other (-5), 0) <> NO_ERROR
   /\ forallb (fun c => negb (is_sm_init c))
        [call_sm_get_boot_args 100 104; call_sm_put_boot_args] = true)
  /\ exists st1,
       sm_init (ERR_other (-5), 0) 1 (boot_state (ts_args_t := Z) 4096 4096)
       = Returned st1
       /\ boot_args st1 = NULL
       /\ fst (sm_get_boot_args 100 104
                 (run [call_sm_get_boot_args 100 104; call_sm_put_boot_args]
                    st1)) = ERR_NOT_CONFIGURED.
Proof.
  assert (H1 : 4096 <> 0) by lia.
  assert (H2 : 1 <> NULL) by (unfold NULL; lia).
  assert (H3 : fst (ERR_other (-5), 0) <> NO_ERROR) by discriminate.
  assert (H4 : forallb (fun c => negb (is_sm_init c))
                 [call_sm_get_boot_args 100 104; call_sm_put_boot_args]
               = true) by reflexivity.
  split; [exact (conj H1 (conj H2 (conj H3 H4)))|].
  destruct (sm_init_mapping_failure (ts_args_t := Z) 4096 4096 1
              (ERR_other (-5), 0) _ H1 H1 H2 H3 H4)
    as (st1 & E & _ & B & _ & K).
  cbv zeta in K. destruct K as (G & _ & _).
  exists st1. split; [exact E|]. split; [exact B|].
  apply G; unfold NULL; lia.
Defined.

(** The slots 100 and 104 after an acquisition that succeeds. *)
Lemma sm_get_boot_args_slots_witness :
  fst (sm_get_boot_args 100 104
         (state_of (sm_init (NO_ERROR, 3221225472) 1
                      (boot_state (ts_args_t := Z) 4096 4096)))) = NO_ERROR
  /\ 100 <> 104
  /\ memory
       (snd (sm_get_boot_args 100 104
               (state_of (sm_init (NO_ERROR, 3221225472) 1
                            (boot_state (ts_args_t := Z) 4096 4096)))))
     !! 104 = Some 4096
  /\ memory
       (snd (sm_get_boot_args 100 104
               (state_of (sm_init (NO_ERROR, 3221225472) 1
                            (boot_state (ts_args_t := Z) 4096 4096)))))
     !! 100 = Some 3221225472.
Proof.
  set (st1 := state_of (sm_init (NO_ERROR, 3221225472) 1
                          (boot_state (ts_args_t := Z) 4096 4096))).
  assert (H1 : fst (sm_get_boot_args 100 104 st1) = NO_ERROR) by reflexivity.
  assert (H2 : 100 <> 104) by lia.
  destruct (sm_get_boot_args_slots 100 104 st1) as [_ K].
  destruct (K H1) as (A & B & _).
  exact (conj H1 (conj H2 (conj A (B H2)))).
Defined.

(** Bit 17 of the access control register on a CPU that starts with the
    register at zero. *)
Lemma sm_secondary_init_registers_witness :
  0 <= 17
  /\ Z.testbit
       (NSACR (sm_secondary_init 8192 32768 (mk_cpu_state 0 0 []))) 17
     = Z.testbit (NSACR (mk_cpu_state 0 0 [])) 17
       || ((17 =? 10) || (17 =? 11) || (17 =? 17) || (17 =? 18)).
Proof.
  assert (H : 0 <= 17) by lia.
  destruct (sm_secondary_init_registers 8192 32768 (mk_cpu_state 0 0 []))
    as [K _].
  exact (conj H (K 17 H)).
Defined.

(** A monitor stack allocated at 8192. *)
Lemma sm_secondary_init_stack_witness :
  (0 < 8192 /\ 8192 + 4096 < 4294967296 /\ 8192 mod 8 = 0)
  /\ cpu_trace (sm_secondary_init 8192 32768 (mk_cpu_state 0 0 []))
     = [C_heap_alloc 4096 8; C_sm_set_mon_stack 12288].
Proof.
  assert (H1 : 0 < 8192) by lia.
  assert (H2 : 8192 + 4096 < 4294967296) by lia.
  assert (H3 : 8192 mod 8 = 0) by reflexivity.
  destruct (sm_secondary_init_stack 8192 32768 (mk_cpu_state 0 0 []))
    as [_ K].
  destruct (K H1 H2 H3) as [T _].
  exact (conj (conj H1 (conj H2 H3)) T).
Defined.
